(** * msa_gradio: task orchestration and session history

    A shallow embedding of [app.py] (functions [save_to_db], [run_alignment]
    and [show_history]) and of the [history] table declared in [init_db.py].

    Conventions of the embedding.
    - Python [str] values and file contents are [string]s (byte sequences).
    - The session dictionary held by [gr.State] is a [gmap string pyval];
      the caller's reference may also be [None].
    - Everything outside the process (the files, the SQLite table, the
      [uuid4] draws made so far, the sqlite3 connections opened, the
      external commands started, the log) lives in a [World] record that
      the functions thread explicitly.
    - What the environment answers during one call (the clock, I/O faults,
      the behaviour of the external aligner, database faults) is an [Env]
      record given to the call.
    - [logging] calls append a structured event to the log; the calls of
      the [progress] callback, which only drive the progress bar, are left
      out. *)

From Stdlib Require Import ZArith NArith Ascii String List Lia Sorted.
From stdpp Require Import base option list gmap strings pretty.

Local Open Scope string_scope.

(** ** Strings *)

Definition nl : string := String (ascii_of_nat 10) "".
Definition tab : string := String (ascii_of_nat 9) "".

Definition cr : ascii := ascii_of_nat 13.
Definition lf : ascii := ascii_of_nat 10.

(** What Python reads from a text stream opened with the default
    [newline=None] (a file opened with mode ["r"], a pipe of
    [subprocess.run(..., text=True)]): every [CR LF] and every lone [CR]
    is read as [LF]. *)
Fixpoint universal_newlines (s : string) : string :=
  match s with
  | EmptyString => EmptyString
  | String c rest =>
      if Ascii.eqb c cr then
        match rest with
        | String c' rest' =>
            if Ascii.eqb c' lf then String lf (universal_newlines rest')
            else String lf (universal_newlines rest)
        | EmptyString => String lf EmptyString
        end
      else String c (universal_newlines rest)
  end.

(** [sep.join(parts)] *)
Fixpoint join (sep : string) (parts : list string) : string :=
  match parts with
  | [] => ""
  | [p] => p
  | p :: rest => p ++ sep ++ join sep rest
  end.

(** [s * n] for a string [s] *)
Fixpoint repeat_str (s : string) (n : nat) : string :=
  match n with
  | O => ""
  | S k => s ++ repeat_str s k
  end.

(** [s[-n:]] (on bytes) *)
Definition last_chars (n : nat) (s : string) : string :=
  let len := String.length s in
  String.substring (len - n) (Nat.min n len) s.

(** [a in b] for strings *)
Fixpoint contains (needle hay : string) : bool :=
  if String.prefix needle hay then true
  else match hay with
       | EmptyString => false
       | String _ rest => contains needle rest
       end.

(** Removal of [n] leading characters. *)
Fixpoint drop_str (n : nat) (s : string) : string :=
  match n, s with
  | O, _ => s
  | S k, String _ rest => drop_str k rest
  | S _, EmptyString => EmptyString
  end.

(** SQLite's [REPLACE(s, pat, rep)]: every non-overlapping occurrence of
    [pat], scanning left to right; an empty [pat] leaves [s] as it is. *)
Fixpoint sql_replace_go (fuel : nat) (pat rep s : string) : string :=
  match fuel with
  | O => s
  | S fuel' =>
      match s with
      | EmptyString => EmptyString
      | String c rest =>
          if String.prefix pat s
          then rep ++ sql_replace_go fuel' pat rep (drop_str (String.length pat) s)
          else String c (sql_replace_go fuel' pat rep rest)
      end
  end.

Definition sql_replace (s pat rep : string) : string :=
  match pat with
  | EmptyString => s
  | _ => sql_replace_go (String.length s) pat rep s
  end.

(** ** Python values stored in the session dictionary *)

Inductive pyval : Type :=
| PNone
| PStr (s : string).

(** Truthiness, as used by [not x] and [x or y]. *)
Definition truthy (v : pyval) : bool :=
  match v with
  | PNone => false
  | PStr s => negb (String.eqb s "")
  end.

(** [a or b] *)
Definition py_or (a b : pyval) : pyval := if truthy a then a else b.

(** [str(v)], which is what an f-string field [{v}] shows *)
Definition py_str (v : pyval) : string :=
  match v with
  | PNone => "None"
  | PStr s => s
  end.

(** The session dictionary and [d.get(k)]. *)
Abbreviation session_dict := (gmap string pyval).

Definition dict_get (d : session_dict) (k : string) : pyval :=
  default PNone (d !! k).

(** ** uuid4 and its two renderings *)

Definition hex_digit (n : N) : ascii :=
  match n with
  | 0%N => "0" | 1%N => "1" | 2%N => "2" | 3%N => "3"
  | 4%N => "4" | 5%N => "5" | 6%N => "6" | 7%N => "7"
  | 8%N => "8" | 9%N => "9" | 10%N => "a" | 11%N => "b"
  | 12%N => "c" | 13%N => "d" | 14%N => "e" | _ => "f"
  end%char.

(** The [k] lowest hexadecimal digits of [n], most significant first. *)
Fixpoint hex_fixed (k : nat) (n : N) : string :=
  match k with
  | O => ""
  | S k' => hex_fixed k' (N.shiftr n 4) ++ String (hex_digit (N.land n 15)) ""
  end.

(** [u.hex]: 32 hexadecimal digits of the 128-bit value *)
Definition uuid_hex (u : N) : string := hex_fixed 32 u.

(** [str(u)]: the same digits grouped 8-4-4-4-12 *)
Definition uuid_str (u : N) : string :=
  let h := uuid_hex u in
  String.substring 0 8 h ++ "-" ++ String.substring 8 4 h ++ "-" ++
  String.substring 12 4 h ++ "-" ++ String.substring 16 4 h ++ "-" ++
  String.substring 20 12 h.

(** ** The [history] table ([init_db.py])

    [id INTEGER PRIMARY KEY AUTOINCREMENT], five [TEXT NOT NULL] columns and
    a [UNIQUE] constraint on [task_id]. [rows] is kept in insertion order;
    [seq] is the largest row id handed out so far. *)

Record row : Type := Row {
  row_id : N;
  row_session_id : string;
  row_task_id : string;
  row_tool : string;
  row_input_file : string;
  row_output_file : string;
  row_timestamp : string
}.

Record table : Type := Table {
  rows : list row;
  seq : N
}.

Definition empty_table : table := Table [] 0.

(** [INSERT INTO history (session_id, task_id, tool, input_file, output_file,
    timestamp) VALUES (?, ?, ?, ?, ?, ?)]: a [None] parameter binds NULL and
    breaks [NOT NULL]; a [task_id] already present breaks [UNIQUE]; otherwise
    the row is appended under the next id. The error carries the text of the
    [sqlite3.IntegrityError]. *)
Definition sql_insert (t : table) (sid : pyval) (task tool inp out ts : string)
  : table + string :=
  match sid with
  | PNone => inr "NOT NULL constraint failed: history.session_id"
  | PStr s =>
      if existsb (fun r => String.eqb (row_task_id r) task) (rows t)
      then inr "UNIQUE constraint failed: history.task_id"
      else
        let i := N.succ (seq t) in
        inl (Table (rows t ++ [Row i s task tool inp out ts]) i)
  end.

(** [ORDER BY id DESC], as an insertion sort on the row id. *)
Fixpoint insert_desc (r : row) (l : list row) : list row :=
  match l with
  | [] => [r]
  | x :: rest =>
      if (row_id x <=? row_id r)%N then r :: l else x :: insert_desc r rest
  end.

Fixpoint order_by_id_desc (l : list row) : list row :=
  match l with
  | [] => []
  | r :: rest => insert_desc r (order_by_id_desc rest)
  end.

(** The four selected columns of one row:
    [timestamp, tool, REPLACE(input_file, 'uploads/', ''),
     REPLACE(output_file, 'results/', '')]. *)
Definition select_columns (r : row) : list string :=
  [ row_timestamp r; row_tool r;
    sql_replace (row_input_file r) "uploads/" "";
    sql_replace (row_output_file r) "results/" "" ].

(** The rows the [SELECT] of [show_history] ranges over, before projection:
    [WHERE session_id = ? ORDER BY id DESC LIMIT 20]. *)
Definition select_rows (t : table) (sid : string) : list row :=
  take 20 (order_by_id_desc
             (List.filter (fun r => String.eqb (row_session_id r) sid) (rows t))).

Definition sql_select_history (t : table) (sid : string) : list (list string) :=
  map select_columns (select_rows t sid).

(** ** The world outside the process *)

Inductive log_event : Type :=
| ErrStateNone (fn : string)
| InfoReceivedState (fn : string) (d : session_dict)
| InfoNewSession (sid : string)
| InfoUsingSession (sid : pyval)
| InfoInputSaved (path : string)
| ErrSavingUpload (e : string)
| InfoMafftDone (task : string)
| WarnMuscleV3
| InfoMuscleDone (task out err : string)
| ErrCommandNotFound (cmd0 tool : string)
| ErrToolFailed (tool task : string) (rc : Z)
| ErrStderr (err : pyval)
| ErrUnexpected (e : string)
| InfoResultRead (path : string)
| ErrResultRead (path e : string)
| InfoDbSaved (task : string) (sid : pyval)
| ErrDbSave (task e : string)
| ErrDbFetch (sid : pyval) (e : string).

Record World : Type := mkWorld {
  files : gmap string string;       (* path |-> contents *)
  history : table;                  (* msa_history.db *)
  uuid_draws : nat;                 (* calls of uuid.uuid4() so far *)
  db_conns : nat;                   (* calls of sqlite3.connect so far *)
  run_calls : list (list string);   (* argv of every subprocess.run call *)
  log : list log_event              (* oldest first *)
}.

Definition logging (ev : log_event) (w : World) : World :=
  mkWorld (files w) (history w) (uuid_draws w) (db_conns w) (run_calls w)
          (log w ++ [ev]).

Definition with_files (f : gmap string string) (w : World) : World :=
  mkWorld f (history w) (uuid_draws w) (db_conns w) (run_calls w) (log w).

Definition with_history (t : table) (w : World) : World :=
  mkWorld (files w) t (uuid_draws w) (db_conns w) (run_calls w) (log w).

Definition draw_uuid (w : World) : World :=
  mkWorld (files w) (history w) (S (uuid_draws w)) (db_conns w) (run_calls w)
          (log w).

Definition connect (w : World) : World :=
  mkWorld (files w) (history w) (uuid_draws w) (S (db_conns w)) (run_calls w)
          (log w).

Definition record_run (argv : list string) (w : World) : World :=
  mkWorld (files w) (history w) (uuid_draws w) (db_conns w)
          (run_calls w ++ [argv]) (log w).

(** ** What the environment answers during one call *)

(** The result of one [subprocess.run(argv, ...)]: for a process that
    ran, its exit status, what it wrote to standard output and to standard
    error, and the files it wrote. *)
Inductive proc_result : Type :=
| NoSuchCommand                       (* FileNotFoundError *)
| RunRaises (e : string)              (* any other exception *)
| Exits (rc : Z) (out err : string) (writes : list (string * string)).

(** An exception of [open]. *)
Inductive open_error : Type :=
| NoSuchFile (e : string)             (* FileNotFoundError *)
| OtherOpenError (e : string).

(** An exception while an existing upload is copied (lines 69-70):
    [open(input_path, "wb")] raises, and nothing is created; or the read
    or the write raises after [input_path] has been created, and
    [remains] is what the file is left with. *)
Inductive stage_error : Type :=
| OutputNotOpened (e : string)
| CopyInterrupted (e remains : string).

Record Env : Type := mkEnv {
  uuid4 : nat -> N;                   (* the n-th value uuid.uuid4() returns *)
  now_stamp : string;                 (* datetime.now().strftime("%Y%m%d_%H%M%S") *)
  now_iso : string;                   (* datetime.now().isoformat() *)
  stage_fault : option stage_error;   (* copying the upload raises *)
  out_open_fault : option open_error; (* open(output_path, "w") raises *)
  spawn : list string -> gmap string string -> proc_result;
  read_fault : option string;         (* reading an existing result raises *)
  db_fault : option string;           (* sqlite3.Error other than a constraint *)
  enoent_text : string -> string      (* str(e) of the FileNotFoundError that
                                         open(path) raises for a missing path *)
}.

Definition write_all (ws : list (string * string)) (f : gmap string string)
  : gmap string string :=
  foldl (fun acc kv => <[kv.1 := kv.2]> acc) f ws.

(** The file object handed over by the upload widget: it has a [name]
    attribute or it has not. *)
Inductive upload : Type :=
| Named (name : string)
| Nameless.

(** ** [save_to_db] *)

Definition save_to_db (E : Env) (session_id : pyval)
    (task_id tool input_file output_file timestamp : string) (w : World) : World :=
  let w := connect w in
  match db_fault E with
  | Some e => logging (ErrDbSave task_id e) w
  | None =>
      match sql_insert (history w) session_id task_id tool input_file
                       output_file timestamp with
      | inl t => logging (InfoDbSaved task_id session_id) (with_history t w)
      | inr e => logging (ErrDbSave task_id e) w
      end
  end.

(** ** [run_alignment] *)

(** Lines 48-55: the session identity of a dictionary, minted and stored
    when [d.get('session_id')] is [None]. *)
Definition resolve_session (E : Env) (d : session_dict) (w : World)
  : pyval * session_dict * World :=
  let session_id := dict_get d "session_id" in
  match session_id with
  | PNone =>
      let sid := uuid_str (uuid4 E (uuid_draws w)) in
      (PStr sid, <["session_id" := PStr sid]> d,
       logging (InfoNewSession sid) (draw_uuid w))
  | PStr _ => (session_id, d, logging (InfoUsingSession session_id) w)
  end.

(** Lines 65-74: copy of the upload to [input_path]. [inr (e, w')] is the
    text of the exception caught at line 72 and the world the failed copy
    leaves. *)
Definition stage_input (E : Env) (fasta_file_obj : upload) (input_path : string)
    (w : World) : World + string * World :=
  match fasta_file_obj with
  | Nameless => inr ("Invalid file object received.", w)
  | Named name =>
      match files w !! name with
      | None => inr (enoent_text E name, w)
      | Some content =>
          match stage_fault E with
          | Some (OutputNotOpened e) => inr (e, w)
          | Some (CopyInterrupted e remains) =>
              inr (e, with_files (<[input_path := remains]> (files w)) w)
          | None => inl (with_files (<[input_path := content]> (files w)) w)
          end
      end
  end.

(** Exceptions the [try] block of lines 79-95 can raise. *)
Inductive exn : Type :=
| FileNotFoundError
| CalledProcessError (returncode : Z) (stdout stderr : pyval)
| Exception (e : string).

(** [subprocess.run(argv, stdout=..., stderr=subprocess.PIPE, text=True,
    check=True)]; [stdout_file] is the file standard output is sent to, or
    [None] for [subprocess.PIPE]. Returns [(result.stdout, result.stderr)]:
    a stream sent to a file reaches it as the process wrote it and is not
    captured; a captured stream is read as text. *)
Definition subprocess_run (E : Env) (argv : list string)
    (stdout_file : option string) (w : World) : (pyval * pyval + exn) * World :=
  let w := record_run argv w in
  match spawn E argv (files w) with
  | NoSuchCommand => (inr FileNotFoundError, w)
  | RunRaises e => (inr (Exception e), w)
  | Exits rc out err writes =>
      let f := write_all writes (files w) in
      let f := match stdout_file with
               | Some p => <[p := out]> f
               | None => f
               end in
      let stdout := match stdout_file with
                    | Some _ => PNone
                    | None => PStr (universal_newlines out)
                    end in
      let stderr := PStr (universal_newlines err) in
      let w := with_files f w in
      if (rc =? 0)%Z then (inl (stdout, stderr), w)
      else (inr (CalledProcessError rc stdout stderr), w)
  end.

(** The [return] statement a call leaves through. *)
Inductive exit_point : Type :=
| NoFile                                    (* line 45 *)
| SaveFailed (e : string)                   (* line 74 *)
| InvalidTool                               (* line 95 *)
| CommandNotFound (command0 : string)       (* line 99 *)
| ToolFailed (error_detail : pyval)         (* line 105 *)
| Unexpected (e : string)                   (* line 108 *)
| ReadFailed                                (* line 119 *)
| Done (result_text output_path : string).  (* line 127 *)

(** How the [try] block of lines 79-95 ends: it falls through, it returns
    (line 95), or it raises with [command] as it stands at that moment. *)
Inductive try_end : Type :=
| FallsThrough
| Returns (x : exit_point)
| Raises (ex : exn) (command : list string).

Definition try_tool (E : Env) (tool task_id input_path output_path : string)
    (w : World) : try_end * World :=
  if String.eqb tool "MAFFT" then
    let command := ["mafft"; "--quiet"; input_path] in
    match out_open_fault E with
    | Some (NoSuchFile _) => (Raises FileNotFoundError command, w)
    | Some (OtherOpenError e) => (Raises (Exception e) command, w)
    | None =>
        let w := with_files (<[output_path := ""]> (files w)) w in
        match subprocess_run E command (Some output_path) w with
        | (inl _, w) => (FallsThrough, logging (InfoMafftDone task_id) w)
        | (inr ex, w) => (Raises ex command, w)
        end
    end
  else if String.eqb tool "MUSCLE" then
    let command := ["muscle"; "-in"; input_path; "-out"; output_path] in
    let w := logging WarnMuscleV3 w in
    match subprocess_run E command None w with
    | (inl (out, err), w) =>
        (FallsThrough, logging (InfoMuscleDone task_id (py_str out) (py_str err)) w)
    | (inr ex, w) => (Raises ex command, w)
    end
  else (Returns InvalidTool, w).

(** Lines 97-108: the three handlers. *)
Definition handle (tool task_id : string) (ex : exn) (command : list string)
    (w : World) : exit_point * World :=
  match ex with
  | FileNotFoundError =>
      let command0 := List.hd "" command in
      (CommandNotFound command0, logging (ErrCommandNotFound command0 tool) w)
  | CalledProcessError returncode stdout stderr =>
      let w := logging (ErrToolFailed tool task_id returncode) w in
      let w := logging (ErrStderr stderr) w in
      let error_detail :=
        py_or stderr (py_or stdout (PStr ("Return code: " ++ pretty returncode))) in
      (ToolFailed error_detail, w)
  | Exception e => (Unexpected e, logging (ErrUnexpected e) w)
  end.

(** Lines 113-119: [open(output_path, "r").read()], a text-mode read. *)
Definition read_output (E : Env) (output_path : string) (w : World)
  : string + string :=
  match files w !! output_path with
  | None => inr (enoent_text E output_path)
  | Some content =>
      match read_fault E with
      | Some e => inr e
      | None => inl (universal_newlines content)
      end
  end.

(** Lines 60-63: [os.path.join("uploads", f"input_{task_id}_{timestamp_str}.fasta")]
    and [os.path.join("results", f"result_{task_id}_{timestamp_str}.aln")]. *)
Definition input_path_of (task_id timestamp_str : string) : string :=
  let input_filename := "input_" ++ task_id ++ "_" ++ timestamp_str ++ ".fasta" in
  "uploads/" ++ input_filename.

Definition output_path_of (task_id timestamp_str : string) : string :=
  let output_filename := "result_" ++ task_id ++ "_" ++ timestamp_str ++ ".aln" in
  "results/" ++ output_filename.

(** The body of [run_alignment], up to the choice of the [return] statement.
    The second component is the caller's session state after the call: the
    dictionary is mutated in place, a [None] stays [None]. *)
Definition run_alignment_exit (E : Env) (fasta_file_obj : option upload)
    (tool : string) (current_session_state : option session_dict) (w : World)
  : exit_point * option session_dict * World :=
  let w := match current_session_state with
           | None => logging (ErrStateNone "run_alignment") w
           | Some _ => w
           end in
  let d := default ∅ current_session_state in
  let w := logging (InfoReceivedState "run_alignment" d) w in
  match fasta_file_obj with
  | None => (NoFile, current_session_state, w)
  | Some file =>
      let '(session_id, d, w) := resolve_session E d w in
      let state := match current_session_state with
                   | None => None
                   | Some _ => Some d
                   end in
      let task_id := uuid_hex (uuid4 E (uuid_draws w)) in
      let w := draw_uuid w in
      let timestamp_str := now_stamp E in
      let input_path := input_path_of task_id timestamp_str in
      let output_path := output_path_of task_id timestamp_str in
      match stage_input E file input_path w with
      | inr (e, w) => (SaveFailed e, state, logging (ErrSavingUpload e) w)
      | inl w =>
          let w := logging (InfoInputSaved input_path) w in
          match try_tool E tool task_id input_path output_path w with
          | (Returns x, w) => (x, state, w)
          | (Raises ex command, w) =>
              let '(x, w) := handle tool task_id ex command w in (x, state, w)
          | (FallsThrough, w) =>
              match read_output E output_path w with
              | inr e => (ReadFailed, state, logging (ErrResultRead output_path e) w)
              | inl result_text =>
                  let w := logging (InfoResultRead output_path) w in
                  let w := save_to_db E session_id task_id tool input_path
                                      output_path (now_iso E) w in
                  (Done result_text output_path, state, w)
              end
          end
      end
  end.

(** The three values each [return] statement hands back:
    [(result text, downloadable artifact, status)]. *)
Record outputs : Type := Outputs {
  result_box : string;
  file_download : option string;
  status_output : string
}.

Definition outputs_of (tool : string) (x : exit_point) : outputs :=
  match x with
  | NoFile =>
      Outputs "请上传FASTA文件。" None "错误：未上传文件"
  | SaveFailed e =>
      Outputs ("处理上传文件时出错: " ++ e) None "错误：文件保存失败"
  | InvalidTool =>
      Outputs "无效的比对工具选择。" None "错误：无效工具"
  | CommandNotFound command0 =>
      Outputs ("错误: 命令 '" ++ command0 ++ "' 未找到。请确保 " ++ tool
               ++ " 已安装并已添加到系统 PATH。")
              None ("错误：" ++ tool ++ " 未找到")
  | ToolFailed error_detail =>
      Outputs (tool ++ " 运行时出错。" ++ nl ++ "错误信息:" ++ nl
               ++ py_str error_detail)
              None ("错误：" ++ tool ++ " 运行失败")
  | Unexpected e =>
      Outputs ("比对过程中发生意外错误: " ++ e) None "错误：比对异常"
  | ReadFailed =>
      Outputs "比对成功，但读取结果文件时出错。" None "错误：结果读取失败"
  | Done result_text output_path =>
      Outputs result_text (Some output_path) ("比对完成 (" ++ tool ++ ")。")
  end.

Definition run_alignment (E : Env) (fasta_file_obj : option upload)
    (tool : string) (current_session_state : option session_dict) (w : World)
  : outputs * option session_dict * World :=
  let '(x, state, w) :=
    run_alignment_exit E fasta_file_obj tool current_session_state w in
  (outputs_of tool x, state, w).

(** The terminal state of the task a call stands for (Rejected: no input or
    invalid tool; Completed: the last [return]; Failed: the others). *)
Inductive task_state : Type := Rejected | Failed | Completed.

Definition terminal_state (x : exit_point) : task_state :=
  match x with
  | NoFile | InvalidTool => Rejected
  | Done _ _ => Completed
  | _ => Failed
  end.

(** ** [show_history] *)

Definition history_header : string :=
  "时间" ++ tab ++ "工具" ++ tab ++ "输入文件" ++ tab ++ "输出文件" ++ nl
  ++ repeat_str "-" 50 ++ nl.

Definition show_history (E : Env) (current_session_state : option session_dict)
    (w : World) : string * option session_dict * World :=
  let w := match current_session_state with
           | None => logging (ErrStateNone "show_history") w
           | Some _ => w
           end in
  let d := default ∅ current_session_state in
  let w := logging (InfoReceivedState "show_history" d) w in
  let session_id := dict_get d "session_id" in
  if negb (truthy session_id) then
    ("当前会话没有历史记录。", current_session_state, w)
  else
    let w := connect w in
    match db_fault E with
    | Some e =>
        ("无法加载历史记录: " ++ e, current_session_state,
         logging (ErrDbFetch session_id e) w)
    | None =>
        let rows := sql_select_history (history w) (py_str session_id) in
        match rows with
        | [] =>
            ("当前会话 (ID: ..." ++ last_chars 6 (py_str session_id)
             ++ ") 没有历史记录。", current_session_state, w)
        | _ =>
            (history_header ++ join nl (map (join tab) rows),
             current_session_state, w)
        end
    end.

(** ** A sample environment and sample runs *)

Module Sample.

(** An aligner that echoes the input on standard output, as [mafft] does,
    or writes it to the file after [-out], as [muscle] does. *)
Definition aligner (argv : list string) (f : gmap string string) : proc_result :=
  match argv with
  | [_; _; inp] => Exits 0 (default "" (f !! inp)) "" []
  | [_; _; inp; _; out] => Exits 0 "" "" [(out, default "" (f !! inp))]
  | _ => RunRaises "bad arguments"
  end.

Definition failing (rc : Z) (out err : string)
    (argv : list string) (f : gmap string string) : proc_result :=
  Exits rc out err [].

(** The text of a missing-file error, for plain path names. *)
Definition enoent (path : string) : string :=
  "[Errno 2] No such file or directory: '" ++ path ++ "'".

Definition env : Env :=
  mkEnv (fun n => N.of_nat (n + 10)) "20240101_120000" "2024-01-01T12:00:01"
        None None aligner None None enoent.

Definition env_failing (rc : Z) (out err : string) : Env :=
  mkEnv (uuid4 env) (now_stamp env) (now_iso env) None None
        (failing rc out err) None None enoent.

Definition env_db_down : Env :=
  mkEnv (uuid4 env) (now_stamp env) (now_iso env) None None aligner None
        (Some "unable to open database file") enoent.

Definition fasta : string := ">a" ++ nl ++ "ACGT" ++ nl.

Definition world : World :=
  mkWorld {[ "/tmp/gradio/in.fasta" := fasta ]} empty_table 0 0 [] [].

Definition file : option upload := Some (Named "/tmp/gradio/in.fasta").

(** Tables built by successive inserts of [(session, task)] pairs. *)
Definition record (t : table) (p : string * string) : table :=
  match sql_insert t (PStr p.1) p.2 "MAFFT"
          (input_path_of p.2 "20240101_120000")
          (output_path_of p.2 "20240101_120000") "2024-01-01T12:00:01" with
  | inl t' => t'
  | inr _ => t
  end.

Definition ledger3 : table :=
  foldl record empty_table [("A", "t1"); ("B", "t2"); ("A", "t3")].

(** Tasks 1..n, the odd ones of session A and the even ones of session B. *)
Definition alternating (n : nat) : list (string * string) :=
  map (fun i => (if Nat.even i then "B" else "A", "t" ++ pretty i))
      (List.seq 1 n).

Definition ledger45 : table := foldl record empty_table (alternating 45).

Definition world_with (t : table) : World := mkWorld ∅ t 0 0 [] [].

(** The upload of [world] next to the three records of [ledger3]. *)
Definition world3 : World :=
  mkWorld {[ "/tmp/gradio/in.fasta" := fasta ]} ledger3 0 0 [] [].

End Sample.

(** ** Notions used to state the properties *)

(** The three components of what a call gives back. *)
Definition result_of {A B C : Type} (r : A * B * C) : A := r.1.1.
Definition state_of {A B C : Type} (r : A * B * C) : B := r.1.2.
Definition world_of {A B C : Type} (r : A * B * C) : C := r.2.

(** The parts of the world that only [save_to_db] and the identity draws
    touch. *)
Definition ledger (w : World) : table * nat * nat :=
  (history w, db_conns w, uuid_draws w).

(** The same environment with another answer of the database. *)
Definition with_db_fault (o : option string) (E : Env) : Env :=
  mkEnv (uuid4 E) (now_stamp E) (now_iso E) (stage_fault E) (out_open_fault E)
        (spawn E) (read_fault E) o (enoent_text E).

(** Row ids grow strictly along the insertion order, above [lo]. *)
Fixpoint increasing_from (lo : N) (l : list row) : bool :=
  match l with
  | [] => true
  | r :: rest => (lo <? row_id r)%N && increasing_from (row_id r) rest
  end.

(** The shape every table built by [sql_insert] from [empty_table] has. *)
Definition table_ok (t : table) : bool :=
  increasing_from 0 (rows t)
  && forallb (fun r => (row_id r <=? seq t)%N) (rows t).

(** The records of one session, in the order they were inserted: T1..TN. *)
Definition session_records (t : table) (sid : string) : list row :=
  List.filter (fun r => String.eqb (row_session_id r) sid) (rows t).

(** The history page in the words of the specification: the [limit] most
    recent of T1..TN (all of them when N <= limit), newest first. *)
Definition most_recent_first (limit : nat) (ts : list row) : list row :=
  rev (drop (length ts - limit) ts).

(** What [show_history] displays for a list of rows. *)
Definition render_rows (rs : list row) : string :=
  history_header ++ join nl (map (join tab) (map select_columns rs)).

(** Later resolutions of one dictionary, each in its own environment and
    world: the identities they return. *)
Fixpoint resolve_many (calls : list (Env * World)) (d : session_dict)
  : list pyval :=
  match calls with
  | [] => []
  | (E, w) :: rest =>
      let '(sid, d', _) := resolve_session E d w in
      sid :: resolve_many rest d'
  end.

(** The session identity [run_alignment] works under when it is given the
    state [st] in world [w]. *)
Definition resolved_session (E : Env) (st : option session_dict) (w : World)
  : pyval :=
  result_of (resolve_session E (default ∅ st) w).

(** The task identity drawn by a call that starts in world [w] with state
    [st]: the next [uuid4] value after the one a new session takes. *)
Definition task_id_of (E : Env) (st : option session_dict) (w : World) : string :=
  uuid_hex (uuid4 E (uuid_draws (world_of (resolve_session E (default ∅ st) w)))).

(** ** The interface ([gr.Blocks], lines 172-206)

    One client: the session state starts as [gr.State(value={})]; the run
    button hands the file, the tool of the radio group and the state to
    [run_alignment], the history button hands the state to [show_history].
    The state is in neither list of outputs: the handlers see the
    dictionary the previous ones left. *)

Definition initial_state : option session_dict := Some ∅.

(** The choices of [gr.Radio(["MAFFT", "MUSCLE"], ...)]. *)
Definition tool_choices : list string := ["MAFFT"; "MUSCLE"].

Inductive click : Type :=
| RunButton (E : Env) (file_input : option upload) (tool_select : string)
| HistoryButton (E : Env).

(** What a click puts on the page. *)
Inductive shown : Type :=
| RunShown (o : outputs)
| HistoryShown (history_output : string).

Fixpoint demo (clicks : list click) (session_state : option session_dict)
    (w : World) : list shown * option session_dict * World :=
  match clicks with
  | [] => ([], session_state, w)
  | RunButton E file_input tool_select :: rest =>
      let '(o, session_state, w) :=
        run_alignment E file_input tool_select session_state w in
      let '(page, session_state, w) := demo rest session_state w in
      (RunShown o :: page, session_state, w)
  | HistoryButton E :: rest =>
      let '(text, session_state, w) := show_history E session_state w in
      let '(page, session_state, w) := demo rest session_state w in
      (HistoryShown text :: page, session_state, w)
  end.

(** What a click shows when no file has been chosen and the dictionary is
    empty. *)
Definition idle_answer (c : click) : shown :=
  match c with
  | RunButton _ _ _ => RunShown (Outputs "请上传FASTA文件。" None "错误：未上传文件")
  | HistoryButton _ => HistoryShown "当前会话没有历史记录。"
  end.

(** A click of the run button without a file, or of the history button. *)
Definition without_file (c : click) : Prop :=
  match c with
  | RunButton _ file_input _ => file_input = None
  | HistoryButton _ => True
  end.

(** ** Further notions used to state properties *)

(** No carriage return in a string. *)
Fixpoint no_cr (s : string) : bool :=
  match s with
  | EmptyString => true
  | String c rest => negb (Ascii.eqb c cr) && no_cr rest
  end.

(** No ['/'] in a string. *)
Fixpoint no_slash (s : string) : bool :=
  match s with
  | EmptyString => true
  | String c rest => negb (Ascii.eqb c "/") && no_slash rest
  end.

(** The command line [run_alignment] builds for a supported tool. *)
Definition command_of (tool input_path output_path : string) : list string :=
  if String.eqb tool "MAFFT" then ["mafft"; "--quiet"; input_path]
  else ["muscle"; "-in"; input_path; "-out"; output_path].

(** The row a completed call started in world [w] with state [st] hands to
    the table, for the session [s]. *)
Definition recorded_row (E : Env) (tool : string) (st : option session_dict)
    (w : World) (s : string) : row :=
  Row (N.succ (seq (history w))) s (task_id_of E st w) tool
      (input_path_of (task_id_of E st w) (now_stamp E))
      (output_path_of (task_id_of E st w) (now_stamp E))
      (now_iso E).

(** The [UNIQUE] constraint on [task_id]. *)
Definition task_ids_unique (t : table) : Prop :=
  NoDup (map row_task_id (rows t)).

(** Rows in the order [ORDER BY id DESC] asks for. *)
Definition ids_descending (l : list row) : Prop :=
  StronglySorted (fun a b => (row_id b <= row_id a)%N) l.

Example run_mafft_ok :
  let '(o, st, w) := run_alignment Sample.env Sample.file "MAFFT" (Some ∅) Sample.world in
  o = Outputs Sample.fasta
        (Some "results/result_0000000000000000000000000000000b_20240101_120000.aln")
        "比对完成 (MAFFT)。"
  /\ st = Some {[ "session_id" := PStr "00000000-0000-0000-0000-00000000000a" ]}
  /\ rows (history w) =
       [Row 1 "00000000-0000-0000-0000-00000000000a"
            "0000000000000000000000000000000b" "MAFFT"
            "uploads/input_0000000000000000000000000000000b_20240101_120000.fasta"
            "results/result_0000000000000000000000000000000b_20240101_120000.aln"
            "2024-01-01T12:00:01"].
Proof. vm_compute. auto. Qed.

(** ** The history table: ordering *)

Section Ordering.

Implicit Types (l : list row) (r : row) (lo : N).

Lemma increasing_from_weaken lo lo' l :
  (lo' <= lo)%N -> increasing_from lo l = true -> increasing_from lo' l = true.
Proof.
  destruct l as [|r rest]; simpl; [done|].
  intros Hle [Hlt Hrest]%andb_prop.
  apply N.ltb_lt in Hlt. apply andb_true_intro. split; [|done].
  apply N.ltb_lt. lia.
Qed.

Lemma increasing_from_above lo l :
  increasing_from lo l = true -> Forall (fun x => (lo < row_id x)%N) l.
Proof.
  revert lo. induction l as [|r rest IH]; intros lo; simpl; [constructor|].
  intros [Hlt Hrest]%andb_prop. apply N.ltb_lt in Hlt.
  constructor; [done|].
  apply IH. apply increasing_from_weaken with (row_id r); [lia | done].
Qed.

Lemma increasing_from_filter (p : row -> bool) lo l :
  increasing_from lo l = true -> increasing_from lo (List.filter p l) = true.
Proof.
  revert lo. induction l as [|r rest IH]; intros lo; simpl; [done|].
  intros [Hlt Hrest]%andb_prop.
  destruct (p r); simpl.
  - rewrite Hlt. simpl. by apply IH.
  - apply IH. apply N.ltb_lt in Hlt.
    apply increasing_from_weaken with (row_id r); [lia | done].
Qed.

Lemma increasing_from_snoc lo l r :
  increasing_from lo l = true ->
  Forall (fun x => (row_id x < row_id r)%N) l -> (lo < row_id r)%N ->
  increasing_from lo (l ++ [r])%list = true.
Proof.
  revert lo. induction l as [|x rest IH]; intros lo; simpl.
  - intros _ _ Hlt. apply N.ltb_lt in Hlt. by rewrite Hlt.
  - intros [Hlt Hrest]%andb_prop Hall _. rewrite Hlt. simpl.
    inversion Hall; subst. by apply IH.
Qed.

Lemma insert_desc_oldest r l :
  Forall (fun x => (row_id r < row_id x)%N) l -> insert_desc r l = (l ++ [r])%list.
Proof.
  induction 1 as [|x rest Hx _ IH]; simpl; [done|].
  replace (row_id x <=? row_id r)%N with false
    by (symmetry; apply N.leb_gt; lia).
  by rewrite IH.
Qed.

Lemma order_by_id_desc_increasing lo l :
  increasing_from lo l = true -> order_by_id_desc l = rev l.
Proof.
  revert lo. induction l as [|r rest IH]; intros lo; simpl; [done|].
  intros [_ Hrest]%andb_prop.
  rewrite (IH _ Hrest). apply insert_desc_oldest.
  apply Forall_rev. by apply increasing_from_above.
Qed.

Lemma take_rev_most_recent n l : take n (rev l) = most_recent_first n l.
Proof. unfold most_recent_first. apply firstn_rev. Qed.

Lemma select_rows_ok t sid :
  table_ok t = true ->
  select_rows t sid = most_recent_first 20 (session_records t sid).
Proof.
  intros [Hinc _]%andb_prop. unfold select_rows, session_records.
  rewrite (order_by_id_desc_increasing 0); [apply take_rev_most_recent|].
  by apply increasing_from_filter.
Qed.

Lemma session_records_owned t sid :
  Forall (fun r => row_session_id r = sid) (session_records t sid).
Proof.
  unfold session_records. apply List.Forall_forall. intros r Hin.
  apply filter_In in Hin as [_ Heq]. by apply String.eqb_eq.
Qed.

Lemma table_ok_empty : table_ok empty_table = true.
Proof. reflexivity. Qed.

Lemma sql_insert_ok t sid task tool inp out ts t' :
  table_ok t = true ->
  sql_insert t sid task tool inp out ts = inl t' ->
  table_ok t' = true.
Proof.
  intros [Hinc Hle]%andb_prop. unfold sql_insert.
  destruct sid as [|s]; [done|].
  destruct (existsb _ _); [done|]. intros [= <-].
  rewrite forallb_forall in Hle.
  assert (Hall : Forall (fun x => (row_id x <= seq t)%N) (rows t)).
  { apply Forall_forall. intros x Hx. apply N.leb_le. apply Hle.
    by apply list_elem_of_In. }
  unfold table_ok. simpl. apply andb_true_intro. split.
  - apply increasing_from_snoc; simpl; [done| |lia].
    eapply Forall_impl; [exact Hall|]. simpl. intros x Hx. lia.
  - apply forallb_forall. intros x [Hx | [<- | []]]%in_app_or; simpl.
    + apply N.leb_le. specialize (Hle x Hx). apply N.leb_le in Hle. lia.
    + apply N.leb_le. lia.
Qed.

Lemma sql_insert_appends t sid task tool inp out ts t' :
  sql_insert t sid task tool inp out ts = inl t' ->
  exists s, sid = PStr s
    /\ rows t' = (rows t ++ [Row (N.succ (seq t)) s task tool inp out ts])%list.
Proof.
  unfold sql_insert. destruct sid as [|s]; [done|].
  destruct (existsb _ _); [done|]. intros [= <-]. by exists s.
Qed.

End Ordering.

(** ** Frame facts of the steps of [run_alignment] *)

Lemma ledger_logging ev w : ledger (logging ev w) = ledger w.
Proof. reflexivity. Qed.

Lemma ledger_with_files f w : ledger (with_files f w) = ledger w.
Proof. reflexivity. Qed.

Lemma ledger_record_run argv w : ledger (record_run argv w) = ledger w.
Proof. reflexivity. Qed.

Lemma stage_input_inv E file input_path w w' :
  stage_input E file input_path w = inl w' ->
  exists name content,
    file = Named name /\ files w !! name = Some content
    /\ stage_fault E = None
    /\ w' = with_files (<[input_path := content]> (files w)) w.
Proof.
  unfold stage_input. destruct file as [name|]; [|done].
  destruct (files w !! name) as [content|] eqn:Hname; [|done].
  destruct (stage_fault E) as [[e|e remains]|] eqn:Hfault; [done|done|].
  intros [= <-]. by exists name, content.
Qed.

(** A copy that fails touches at most [input_path]. *)
Lemma stage_input_fails_frame E file input_path w e w' :
  stage_input E file input_path w = inr (e, w') ->
  ledger w' = ledger w
  /\ run_calls w' = run_calls w
  /\ log w' = log w
  /\ forall p, p <> input_path -> files w' !! p = files w !! p.
Proof.
  unfold stage_input. destruct file as [name|]; [|by intros [= <- <-]].
  destruct (files w !! name) as [content|]; [|by intros [= <- <-]].
  destruct (stage_fault E) as [[e'|e' remains]|]; [| |done].
  - by intros [= <- <-].
  - intros [= <- <-]. split_and!; try done.
    intros p Hp. simpl. by rewrite lookup_insert_ne.
Qed.

Lemma read_output_inv E output_path w text :
  read_output E output_path w = inl text ->
  exists content, files w !! output_path = Some content
                  /\ text = universal_newlines content.
Proof.
  unfold read_output. destruct (files w !! output_path) as [content|]; [|done].
  destruct (read_fault E); [done|]. intros [= <-]. by exists content.
Qed.

Lemma subprocess_run_ledger E argv so w :
  ledger (subprocess_run E argv so w).2 = ledger w.
Proof.
  unfold subprocess_run.
  destruct (spawn E argv _) as [| e | rc out err writes]; try done.
  by destruct (rc =? 0)%Z.
Qed.

Lemma subprocess_run_log E argv so w :
  log (subprocess_run E argv so w).2 = log w.
Proof.
  unfold subprocess_run.
  destruct (spawn E argv _) as [| e | rc out err writes]; try done.
  by destruct (rc =? 0)%Z.
Qed.

Lemma try_tool_ledger E tool task inp out w :
  ledger (try_tool E tool task inp out w).2 = ledger w.
Proof.
  unfold try_tool.
  destruct (String.eqb tool "MAFFT").
  - destruct (out_open_fault E) as [[e|e]|]; try done.
    pose proof (subprocess_run_ledger E ["mafft"; "--quiet"; inp] (Some out)
                  (with_files (<[out := ""]> (files w)) w)) as Hl.
    destruct (subprocess_run _ _ _ _) as [[[o e]|ex] w']; simpl in *;
      by rewrite ?ledger_logging, Hl.
  - destruct (String.eqb tool "MUSCLE"); [|done].
    pose proof (subprocess_run_ledger E ["muscle"; "-in"; inp; "-out"; out] None
                  (logging WarnMuscleV3 w)) as Hl.
    destruct (subprocess_run _ _ _ _) as [[[o e]|ex] w']; simpl in *;
      by rewrite ?ledger_logging, Hl.
Qed.

Lemma handle_ledger tool task ex command w :
  ledger (handle tool task ex command w).2 = ledger w.
Proof. by destruct ex. Qed.

Lemma handle_not_done tool task ex command w :
  terminal_state (handle tool task ex command w).1 = Failed.
Proof. by destruct ex. Qed.

Lemma resolve_session_frame E d w :
  history (resolve_session E d w).2 = history w
  /\ db_conns (resolve_session E d w).2 = db_conns w
  /\ files (resolve_session E d w).2 = files w
  /\ run_calls (resolve_session E d w).2 = run_calls w.
Proof. unfold resolve_session. by destruct (dict_get d "session_id"). Qed.

(** Resolution looks at the world only through the draw counter. *)
Lemma resolve_session_log_irrel E d ev w :
  (resolve_session E d (logging ev w)).1 = (resolve_session E d w).1
  /\ uuid_draws (resolve_session E d (logging ev w)).2
     = uuid_draws (resolve_session E d w).2.
Proof. unfold resolve_session. by destruct (dict_get d "session_id"). Qed.

Lemma save_to_db_cases E sid task tool inp out ts w :
  let w' := save_to_db E sid task tool inp out ts w in
  db_conns w' = S (db_conns w)
  /\ uuid_draws w' = uuid_draws w
  /\ files w' = files w
  /\ run_calls w' = run_calls w
  /\ ((exists e, history w' = history w
               /\ log w' = (log w ++ [ErrDbSave task e])%list
               /\ (db_fault E = Some e
                   \/ sql_insert (history w) sid task tool inp out ts = inr e))
      \/ (exists t, db_fault E = None
               /\ sql_insert (history w) sid task tool inp out ts = inl t
               /\ history w' = t)).
Proof.
  unfold save_to_db. destruct (db_fault E) as [e|] eqn:Hfault; simpl.
  - repeat split; try done. left. exists e. auto.
  - destruct (sql_insert _ _ _ _ _ _ _) as [t|e] eqn:Hins; simpl.
    + repeat split; try done. right. by exists t.
    + repeat split; try done. left. exists e. auto.
Qed.

(** ** Where history is written *)

(** The row [run_alignment] hands to [save_to_db] when it is called with
    state [st] in world [w]. *)
Lemma run_alignment_exit_ledger E f tool st w :
  let r := run_alignment_exit E f tool st w in
  match result_of r with
  | Done text path =>
      path = output_path_of (task_id_of E st w) (now_stamp E)
      /\ exists w1,
          ledger w1 = (history w, db_conns w, uuid_draws w1)
          /\ (exists content, files w1 !! path = Some content
                              /\ text = universal_newlines content)
          /\ world_of r =
               save_to_db E (resolved_session E st w) (task_id_of E st w) tool
                 (input_path_of (task_id_of E st w) (now_stamp E))
                 (output_path_of (task_id_of E st w) (now_stamp E))
                 (now_iso E) w1
  | _ => history (world_of r) = history w
         /\ db_conns (world_of r) = db_conns w
  end.
Proof.
  unfold run_alignment_exit, resolved_session, task_id_of, result_of, world_of.
  set (w0 := logging _ (match st with None => _ | Some _ => w end)).
  assert (Hw0 : ledger w0 = ledger w) by (subst w0; by destruct st).
  destruct f as [file|]; simpl.
  2:{ injection Hw0 as Hh Hc _. by rewrite Hh, Hc. }
  pose proof (resolve_session_frame E (default ∅ st) w0) as (Hh & Hc & _ & _).
  assert (Hid : (resolve_session E (default ∅ st) w0).1
                = (resolve_session E (default ∅ st) w).1
                /\ uuid_draws (resolve_session E (default ∅ st) w0).2
                   = uuid_draws (resolve_session E (default ∅ st) w).2).
  { subst w0. destruct st; simpl; rewrite ?(proj1 (resolve_session_log_irrel _ _ _ _)),
      ?(proj2 (resolve_session_log_irrel _ _ _ _)); done. }
  destruct Hid as [Hid Hdraws].
  destruct (resolve_session E (default ∅ st) w0) as [[sid d] w1] eqn:Hres.
  destruct (resolve_session E (default ∅ st) w) as [[sid' d'] w1'] eqn:Hres'.
  simpl in *. injection Hid as <- <-. rewrite <- Hdraws.
  injection Hw0 as Hh0 Hc0 _.
  set (task := uuid_hex (uuid4 E (uuid_draws w1))).
  destruct (stage_input E file _ (draw_uuid w1)) as [w2|[e w2]] eqn:Hstage; simpl.
  2:{ apply stage_input_fails_frame in Hstage as (Hlw & _).
      unfold ledger in Hlw. simpl in Hlw. injection Hlw as -> -> _.
      by rewrite Hh, Hc, Hh0, Hc0. }
  apply stage_input_inv in Hstage as (name & content & -> & _ & _ & ->).
  match goal with |- context [try_tool E tool task ?i ?o ?w] =>
    pose proof (try_tool_ledger E tool task i o w) as Hl;
    destruct (try_tool E tool task i o w) as [[|x|ex command] w3] eqn:Htry
  end; simpl in Hl.
  - destruct (read_output E _ w3) as [text|e] eqn:Hread; simpl.
    + split; [done|]. exists (logging (InfoResultRead (output_path_of task (now_stamp E))) w3).
      split_and!; [|by apply read_output_inv in Hread|done].
      unfold ledger in *; simpl in *.
      injection Hl as Hl1 Hl2 _. congruence.
    + injection Hl as -> -> _. simpl. by rewrite Hh, Hc, Hh0, Hc0.
  - unfold try_tool in Htry.
    destruct (String.eqb tool "MAFFT").
    { destruct (out_open_fault E) as [[?|?]|]; [done|done|].
      by destruct (subprocess_run _ _ _ _) as [[?|?] ?]. }
    destruct (String.eqb tool "MUSCLE").
    { by destruct (subprocess_run _ _ _ _) as [[[??]|?] ?]. }
    injection Htry as <- <-. simpl. by rewrite Hh, Hc, Hh0, Hc0.
  - pose proof (handle_ledger tool task ex command w3) as Hl'.
    pose proof (handle_not_done tool task ex command w3) as Hnd.
    destruct (handle tool task ex command w3) as [x w4]; simpl in *.
    rewrite Hl in Hl'. injection Hl' as -> -> _. simpl.
    destruct x; try done; by rewrite Hh, Hc, Hh0, Hc0.
Qed.

Lemma resolved_session_is_str E st w :
  exists s, resolved_session E st w = PStr s.
Proof.
  unfold resolved_session, resolve_session, result_of.
  destruct (dict_get (default ∅ st) "session_id") as [|s] eqn:Hget; simpl; eauto.
Qed.

(** C1 (amended). History grows only when the task reaches Completed: on
    every other exit [save_to_db] is not called (no connection is opened
    and the table is the same). On the Completed exit [save_to_db] is
    called exactly once; it either appends exactly one row, carrying the
    resolved session, the task identity, the tool, the two paths and the
    timestamp, or, when the insert fails, leaves the table as it was. The
    row is appended whenever the database raises no error and the task
    identity is not yet in the table. *)
Theorem history_grows_only_on_completion E f tool st w :
  let r := run_alignment_exit E f tool st w in
  let appended s :=
    rows (history (world_of r)) =
    (rows (history w) ++
       [Row (N.succ (seq (history w))) s (task_id_of E st w) tool
            (input_path_of (task_id_of E st w) (now_stamp E))
            (output_path_of (task_id_of E st w) (now_stamp E))
            (now_iso E)])%list in
  (terminal_state (result_of r) <> Completed ->
     history (world_of r) = history w /\ db_conns (world_of r) = db_conns w)
  /\ (terminal_state (result_of r) = Completed ->
      db_conns (world_of r) = S (db_conns w)
      /\ (history (world_of r) = history w
          \/ exists s, resolved_session E st w = PStr s /\ appended s)
      /\ (db_fault E = None ->
          existsb (fun x => String.eqb (row_task_id x) (task_id_of E st w))
                  (rows (history w)) = false ->
          exists s, resolved_session E st w = PStr s /\ appended s)).
Proof.
  intros r appended. subst appended.
  pose proof (run_alignment_exit_ledger E f tool st w) as H. fold r in H. simpl in H.
  destruct (result_of r) as [| | | | | | |text path] eqn:Hx; simpl;
    try (split; [intros _; exact H | discriminate]).
  split; [done|]. intros _.
  destruct H as (_ & w1 & Hl & _ & ->). unfold ledger in Hl. injection Hl as Hh Hc.
  pose proof (save_to_db_cases E (resolved_session E st w) (task_id_of E st w) tool
                (input_path_of (task_id_of E st w) (now_stamp E))
                (output_path_of (task_id_of E st w) (now_stamp E))
                (now_iso E) w1) as (Hconn & _ & _ & _ & Hcases).
  simpl in Hconn, Hcases. rewrite Hh in Hcases. rewrite Hc in Hconn.
  split; [done|]. split.
  - destruct Hcases as [(e & Hsame & _) | (t & _ & Hins & Ht)]; [left; congruence|].
    right. apply sql_insert_appends in Hins as (s & Hs & Hrows).
    exists s. split; [done|]. by rewrite Ht.
  - intros Hnof Hfresh.
    destruct Hcases as [(e & _ & _ & [Hf | Hins]) | (t & _ & Hins & Ht)].
    + congruence.
    + destruct (resolved_session_is_str E st w) as [s Hs].
      unfold sql_insert in Hins. rewrite Hs, Hfresh in Hins. done.
    + apply sql_insert_appends in Hins as (s & Hs & Hrows).
      exists s. split; [done|]. by rewrite Ht.
Qed.

(** C1, as stated, fails when the database is down: the task reaches
    Completed and no record is appended. *)
Lemma completed_without_record :
  let r := run_alignment_exit Sample.env_db_down Sample.file "MAFFT" (Some ∅)
             Sample.world in
  ~ (terminal_state (result_of r) = Completed
     <-> exists x, rows (history (world_of r))
                   = (rows (history Sample.world) ++ [x])%list).
Proof.
  intros r.
  assert (Hdone : terminal_state (result_of r) = Completed) by (vm_compute; reflexivity).
  assert (Hrows : rows (history (world_of r)) = []) by (vm_compute; reflexivity).
  intros [Hiff _]. destruct (Hiff Hdone) as [x Hx].
  rewrite Hrows in Hx. simpl in Hx. discriminate.
Qed.

(** ** Unsupported tools *)

Lemma try_tool_invalid E tool task inp out w :
  tool <> "MAFFT" -> tool <> "MUSCLE" ->
  try_tool E tool task inp out w = (Returns InvalidTool, w).
Proof.
  intros H1%String.eqb_neq H2%String.eqb_neq. unfold try_tool. by rewrite H1, H2.
Qed.

Lemma run_alignment_components E f tool st w :
  result_of (run_alignment E f tool st w)
  = outputs_of tool (result_of (run_alignment_exit E f tool st w))
  /\ state_of (run_alignment E f tool st w)
     = state_of (run_alignment_exit E f tool st w)
  /\ world_of (run_alignment E f tool st w)
     = world_of (run_alignment_exit E f tool st w).
Proof.
  unfold run_alignment. by destruct (run_alignment_exit E f tool st w) as [[x s] w'].
Qed.

(** C2 (amended). A submission with a file and a tool other than MAFFT and
    MUSCLE starts no external process and writes nothing to history; the
    tool is examined only after the task identity has been drawn and the
    input staged, so one task identity is allocated, and when staging
    succeeds the input artifact is in the staging area and the call
    returns the invalid-tool rejection. *)
Theorem unsupported_tool_rejected_after_staging E file tool st w :
  tool <> "MAFFT" -> tool <> "MUSCLE" ->
  let r := run_alignment E (Some file) tool st w in
  run_calls (world_of r) = run_calls w
  /\ history (world_of r) = history w
  /\ db_conns (world_of r) = db_conns w
  /\ file_download (result_of r) = None
  /\ uuid_draws (world_of r)
     = S (uuid_draws (world_of (resolve_session E (default ∅ st) w)))
  /\ (forall name content,
        file = Named name -> files w !! name = Some content ->
        stage_fault E = None ->
        result_of r = Outputs "无效的比对工具选择。" None "错误：无效工具"
        /\ files (world_of r)
           = <[input_path_of (task_id_of E st w) (now_stamp E) := content]>
               (files w)).
Proof.
  intros Hmafft Hmuscle r. subst r.
  destruct (run_alignment_components E (Some file) tool st w) as (-> & _ & ->).
  unfold run_alignment_exit, task_id_of, result_of, world_of.
  set (w0 := logging _ (match st with None => _ | Some _ => w end)).
  assert (Hw0 : ledger w0 = ledger w /\ files w0 = files w
                /\ run_calls w0 = run_calls w) by (subst w0; by destruct st).
  destruct Hw0 as (Hl0 & Hf0 & Hr0). injection Hl0 as Hh0 Hc0 Hu0.
  pose proof (resolve_session_frame E (default ∅ st) w0) as (Hh & Hc & Hf & Hr).
  assert (Hdraws : uuid_draws (resolve_session E (default ∅ st) w0).2
                   = uuid_draws (resolve_session E (default ∅ st) w).2).
  { subst w0. destruct st; simpl;
      rewrite ?(proj2 (resolve_session_log_irrel _ _ _ _)); done. }
  destruct (resolve_session E (default ∅ st) w0) as [[sid d] w1].
  simpl in *. rewrite <- Hdraws.
  set (task := uuid_hex (uuid4 E (uuid_draws w1))).
  destruct (stage_input E file _ (draw_uuid w1)) as [w2|[e w2]] eqn:Hstage; simpl.
  - apply stage_input_inv in Hstage as (name & content & -> & Hname & Hfault & ->).
    rewrite try_tool_invalid by done. simpl in *.
    split_and!; try congruence.
    intros ? ? [= <-] Hname' _. rewrite Hf, Hf0 in Hname.
    rewrite Hname in Hname'. injection Hname' as <-.
    split; [done|]. by rewrite Hf, Hf0.
  - pose proof (stage_input_fails_frame _ _ _ _ _ _ Hstage) as (Hlw & Hrw & _ & _).
    unfold ledger in Hlw. simpl in Hlw, Hrw. injection Hlw as Hhw Hcw Huw.
    simpl. split_and!; try congruence.
    intros name content -> Hname Hfault. exfalso.
    unfold stage_input in Hstage. simpl in Hstage.
    rewrite Hf, Hf0, Hname, Hfault in Hstage. discriminate.
Qed.

Lemma unsupported_tool_rejected_after_staging_witness :
  let r := run_alignment Sample.env (Some (Named "/tmp/gradio/in.fasta"))
             "CLUSTAL" (Some ∅) Sample.world in
  uuid_draws (world_of r) = 2
  /\ files (world_of r)
       !! "uploads/input_0000000000000000000000000000000b_20240101_120000.fasta"
     = Some Sample.fasta.
Proof.
  intros r.
  destruct (unsupported_tool_rejected_after_staging Sample.env
              (Named "/tmp/gradio/in.fasta") "CLUSTAL" (Some ∅) Sample.world)
    as (_ & _ & _ & _ & Hdraws & Hstaged); [discriminate | discriminate |].
  split; [exact Hdraws|].
  destruct (Hstaged "/tmp/gradio/in.fasta" Sample.fasta eq_refl eq_refl eq_refl)
    as [_ Hfiles].
  fold r in Hfiles. rewrite Hfiles. vm_compute. reflexivity.
Defined.

(** C2, as stated, fails: with an unsupported tool the call is rejected as
    an invalid tool, yet a task identity has been drawn and the input
    artifact has been written to the staging area. *)
Lemma unsupported_tool_is_staged :
  let r := run_alignment Sample.env Sample.file "CLUSTAL"
             (Some {[ "session_id" := PStr "s1" ]}) Sample.world in
  status_output (result_of r) = "错误：无效工具"
  /\ ~ (uuid_draws (world_of r) = uuid_draws Sample.world)
  /\ ~ (files (world_of r) = files Sample.world).
Proof.
  intros r. split; [vm_compute; reflexivity|]. split.
  - assert (H : uuid_draws (world_of r) = 1) by (vm_compute; reflexivity).
    rewrite H. discriminate.
  - intros Heq.
    assert (H : files (world_of r)
                  !! "uploads/input_0000000000000000000000000000000a_20240101_120000.fasta"
                = Some Sample.fasta) by (vm_compute; reflexivity).
    rewrite Heq in H. vm_compute in H. discriminate.
Qed.

(** ** Persistence failures *)

(** Only [save_to_db] looks at the database: what a call returns and what
    it leaves in the session state do not depend on the database's answer. *)
Lemma run_alignment_exit_db_irrel o E f tool st w :
  result_of (run_alignment_exit (with_db_fault o E) f tool st w)
  = result_of (run_alignment_exit E f tool st w)
  /\ state_of (run_alignment_exit (with_db_fault o E) f tool st w)
     = state_of (run_alignment_exit E f tool st w).
Proof.
  unfold run_alignment_exit, result_of, state_of.
  destruct f as [file|]; [|done].
  change (resolve_session (with_db_fault o E)) with (resolve_session E).
  destruct (resolve_session E _ _) as [[sid d] w1].
  change (uuid4 (with_db_fault o E)) with (uuid4 E).
  change (now_stamp (with_db_fault o E)) with (now_stamp E).
  change (stage_input (with_db_fault o E)) with (stage_input E).
  destruct (stage_input E file _ _) as [w2|[e w2]]; [|done].
  change (try_tool (with_db_fault o E)) with (try_tool E).
  destruct (try_tool E tool _ _ _ _) as [[|x|ex command] w3]; [|done|].
  - change (read_output (with_db_fault o E)) with (read_output E).
    by destruct (read_output E _ w3).
  - by destruct (handle tool _ ex command w3).
Qed.

(** C3. When the tool invocation and the read of its output succeed (the
    same call with a healthy database leaves through the last [return])
    and the history append fails on a database error, the caller gets the
    completed result unchanged: the result text, the output artifact, the
    success status and the session state are those of the call with the
    healthy database; the table is unchanged and the failure is the last
    entry of the log. *)
Theorem persistence_failure_keeps_result E f tool st w e text path :
  db_fault E = Some e ->
  result_of (run_alignment_exit (with_db_fault None E) f tool st w)
  = Done text path ->
  let r := run_alignment E f tool st w in
  let healthy := run_alignment (with_db_fault None E) f tool st w in
  result_of r = Outputs text (Some path) ("比对完成 (" ++ tool ++ ")。")
  /\ result_of r = result_of healthy
  /\ state_of r = state_of healthy
  /\ history (world_of r) = history w
  /\ last (log (world_of r)) = Some (ErrDbSave (task_id_of E st w) e).
Proof.
  intros Hfault Hhealthy r healthy. subst r healthy.
  destruct (run_alignment_exit_db_irrel None E f tool st w) as [Hres Hst].
  assert (Hdone : result_of (run_alignment_exit E f tool st w) = Done text path)
    by (by rewrite <- Hres).
  destruct (run_alignment_components E f tool st w) as (-> & -> & ->).
  destruct (run_alignment_components (with_db_fault None E) f tool st w)
    as (-> & -> & _).
  rewrite Hres, Hst, Hdone. simpl. split_and!; try done.
  all: pose proof (run_alignment_exit_ledger E f tool st w) as H; simpl in H;
    rewrite Hdone in H; destruct H as (_ & w1 & Hl & _ & ->);
    unfold save_to_db; rewrite Hfault; simpl.
  - unfold ledger in Hl. by injection Hl.
  - apply last_snoc.
Qed.

Lemma persistence_failure_keeps_result_witness :
  let r := run_alignment Sample.env_db_down Sample.file "MUSCLE" (Some ∅)
             Sample.world in
  result_of r
  = Outputs Sample.fasta
      (Some "results/result_0000000000000000000000000000000b_20240101_120000.aln")
      "比对完成 (MUSCLE)。"
  /\ history (world_of r) = empty_table.
Proof.
  intros r.
  destruct (persistence_failure_keeps_result Sample.env_db_down Sample.file
              "MUSCLE" (Some ∅) Sample.world "unable to open database file"
              Sample.fasta
              "results/result_0000000000000000000000000000000b_20240101_120000.aln")
    as (Hres & _ & _ & Hhist & _).
  - reflexivity.
  - vm_compute. reflexivity.
  - split; [exact Hres | exact Hhist].
Defined.

(** ** Submissions without a file *)

(** C4. Without a file [run_alignment] returns the "no file" rejection at
    once: no identity is drawn (neither a task identity nor a session
    identity), the session state is as it was, and the history table, the
    files, the database and the external commands are untouched. *)
Theorem no_file_rejected E tool st w :
  let r := run_alignment E None tool st w in
  result_of r = Outputs "请上传FASTA文件。" None "错误：未上传文件"
  /\ state_of r = st
  /\ uuid_draws (world_of r) = uuid_draws w
  /\ history (world_of r) = history w
  /\ db_conns (world_of r) = db_conns w
  /\ files (world_of r) = files w
  /\ run_calls (world_of r) = run_calls w.
Proof. by destruct st. Qed.

(** ** Session resolution *)

Lemma dict_get_insert (d : session_dict) k v : dict_get (<[k := v]> d) k = v.
Proof. unfold dict_get. by rewrite lookup_insert_eq. Qed.

Lemma resolve_session_present E d w s :
  dict_get d "session_id" = PStr s ->
  resolve_session E d w = (PStr s, d, logging (InfoUsingSession (PStr s)) w).
Proof. intros H. unfold resolve_session. by rewrite H. Qed.

Lemma resolve_session_absent E d w :
  dict_get d "session_id" = PNone ->
  resolve_session E d w =
  (PStr (uuid_str (uuid4 E (uuid_draws w))),
   <["session_id" := PStr (uuid_str (uuid4 E (uuid_draws w)))]> d,
   logging (InfoNewSession (uuid_str (uuid4 E (uuid_draws w)))) (draw_uuid w)).
Proof. intros H. unfold resolve_session. by rewrite H. Qed.

(** After a resolution the dictionary carries the identity returned. *)
Lemma resolve_session_stored E d w :
  exists s, result_of (resolve_session E d w) = PStr s
            /\ dict_get (state_of (resolve_session E d w)) "session_id" = PStr s.
Proof.
  destruct (dict_get d "session_id") as [|s] eqn:Hget.
  - rewrite resolve_session_absent by done. eexists. split; [done|].
    apply dict_get_insert.
  - rewrite resolve_session_present with (s := s) by done. by exists s.
Qed.

Lemma resolve_many_present calls d s :
  dict_get d "session_id" = PStr s ->
  Forall (eq (PStr s)) (resolve_many calls d).
Proof.
  intros Hget. induction calls as [|[E w] rest IH]; simpl; [constructor|].
  rewrite resolve_session_present with (s := s) by done.
  by constructor.
Qed.

(** C5. Resolving a session dictionary twice gives the same identity both
    times, whatever happens to the world in between: an identity already
    carried is returned and the dictionary left unchanged; otherwise a
    fresh identity is drawn and stored under ['session_id'], and every
    later resolution of that dictionary returns it without drawing again. *)
Theorem session_resolution_idempotent E d w E' w' calls :
  let r1 := resolve_session E d w in
  let r2 := resolve_session E' (state_of r1) w' in
  result_of r2 = result_of r1
  /\ state_of r2 = state_of r1
  /\ uuid_draws (world_of r2) = uuid_draws w'
  /\ (forall s, dict_get d "session_id" = PStr s ->
        result_of r1 = PStr s /\ state_of r1 = d
        /\ uuid_draws (world_of r1) = uuid_draws w)
  /\ (dict_get d "session_id" = PNone ->
        result_of r1 = PStr (uuid_str (uuid4 E (uuid_draws w)))
        /\ state_of r1 = <["session_id" := result_of r1]> d
        /\ uuid_draws (world_of r1) = S (uuid_draws w))
  /\ Forall (eq (result_of r1)) (resolve_many calls (state_of r1)).
Proof.
  intros r1 r2. subst r1 r2.
  destruct (resolve_session_stored E d w) as (s & Hid & Hstored).
  rewrite (resolve_session_present E' _ w' s Hstored). rewrite Hid.
  split_and!; try done.
  - intros s' Hget. rewrite (resolve_session_present E d w s' Hget) in Hid |- *.
    by injection Hid as <-.
  - intros Hget. rewrite (resolve_session_absent E d w Hget) in Hid |- *.
    by injection Hid as <-.
  - by apply resolve_many_present.
Qed.

(** What a call leaves in the caller's session state. *)
Lemma run_alignment_exit_state E f tool st w :
  state_of (run_alignment_exit E f tool st w) =
  match f, st with
  | Some _, Some d => Some (state_of (resolve_session E d w))
  | _, _ => st
  end.
Proof.
  unfold run_alignment_exit, state_of.
  destruct f as [file|]; [|by destruct st].
  set (w0 := logging _ _).
  assert (Hd : (resolve_session E (default ∅ st) w0).1.2
               = (resolve_session E (default ∅ st) w).1.2).
  { subst w0. unfold resolve_session.
    by destruct st, (dict_get _ "session_id"). }
  destruct (resolve_session E (default ∅ st) w0) as [[sid d'] w1].
  simpl in Hd.
  assert (Hst : match st with Some _ => Some d' | None => None end
                = match st with
                  | Some d => Some (resolve_session E d w).1.2
                  | None => st
                  end) by (destruct st; simpl in *; congruence).
  destruct (stage_input E file _ _) as [w2|[e w2]]; [|exact Hst].
  destruct (try_tool E tool _ _ _ _) as [[|x|ex command] w3]; [|exact Hst|].
  - destruct (read_output E _ w3); exact Hst.
  - destruct (handle tool _ ex command w3). exact Hst.
Qed.

(** C10. [run_alignment] changes the session dictionary at most by
    writing ['session_id'], and only when the dictionary carries no
    identity there: an identity already present is never changed and every
    other key keeps its value; a [None] state stays [None]. [show_history]
    leaves the state as it is. *)
Theorem session_state_frame E f tool st w :
  match st, state_of (run_alignment E f tool st w) with
  | Some d, Some d' =>
      (forall k, k <> "session_id" -> d' !! k = d !! k)
      /\ (forall s, dict_get d "session_id" = PStr s -> d' = d)
      /\ (d' = d
          \/ dict_get d "session_id" = PNone
             /\ d' = <["session_id" := PStr (uuid_str (uuid4 E (uuid_draws w)))]> d)
  | None, None => True
  | _, _ => False
  end
  /\ state_of (show_history E st w) = st.
Proof.
  split.
  - destruct st as [d|].
    2:{ destruct (run_alignment_components E f tool None w) as (_ & -> & _).
        rewrite run_alignment_exit_state. by destruct f. }
    destruct (run_alignment_components E f tool (Some d) w) as (_ & -> & _).
    rewrite run_alignment_exit_state.
    destruct f as [file|]; [|split_and!; auto].
    destruct (dict_get d "session_id") as [|s] eqn:Hget.
    + rewrite resolve_session_absent by done. unfold state_of; simpl.
      split_and!; [|done|by right].
      intros k Hk. by rewrite lookup_insert_ne.
    + rewrite resolve_session_present with (s := s) by done.
      unfold state_of; simpl. split_and!; auto.
  - unfold show_history, state_of.
    destruct (negb _); [done|].
    destruct (db_fault E); [done|].
    by destruct (sql_select_history _ _).
Qed.

(** ** History queries *)

(** C7. When the session state carries no session identity,
    [show_history] answers "no history for this session" without opening
    the database and without drawing an identity; the state and the table
    are as they were. *)
Theorem show_history_without_session E st w :
  dict_get (default ∅ st) "session_id" = PNone ->
  let r := show_history E st w in
  result_of r = "当前会话没有历史记录。"
  /\ state_of r = st
  /\ db_conns (world_of r) = db_conns w
  /\ history (world_of r) = history w
  /\ uuid_draws (world_of r) = uuid_draws w.
Proof.
  intros Hget r. subst r. unfold show_history. rewrite Hget. simpl.
  by destruct st.
Qed.

Lemma show_history_without_session_witness :
  result_of (show_history Sample.env (Some ∅) Sample.world)
  = "当前会话没有历史记录。".
Proof.
  apply (show_history_without_session Sample.env (Some ∅) Sample.world).
  reflexivity.
Defined.

(** A successful insert extends the records of the session it is made
    for, at the end, and leaves those of every other session alone. *)
Lemma session_records_insert t sid task tool inp out ts t' s :
  sql_insert t (PStr s) task tool inp out ts = inl t' ->
  session_records t' sid =
  (session_records t sid ++
     if String.eqb s sid
     then [Row (N.succ (seq t)) s task tool inp out ts] else [])%list.
Proof.
  intros Hins. apply sql_insert_appends in Hins as (s' & [= <-] & Hrows).
  unfold session_records. rewrite Hrows, List.filter_app. simpl.
  by destruct (String.eqb s sid).
Qed.

(** [run_alignment] keeps the table well formed. *)
Lemma run_alignment_table_ok E f tool st w :
  table_ok (history w) = true ->
  table_ok (history (world_of (run_alignment E f tool st w))) = true.
Proof.
  intros Hok.
  destruct (run_alignment_components E f tool st w) as (_ & _ & ->).
  pose proof (run_alignment_exit_ledger E f tool st w) as H. simpl in H.
  destruct (result_of (run_alignment_exit E f tool st w));
    try (destruct H as [-> _]; exact Hok).
  destruct H as (_ & w1 & Hl & _ & ->). unfold ledger in Hl. injection Hl as Hh _.
  match goal with |- context [save_to_db E ?a ?b ?c ?d ?e ?g w1] =>
    pose proof (save_to_db_cases E a b c d e g w1) as (_ & _ & _ & _ & Hcases)
  end.
  simpl in Hcases.
  destruct Hcases as [(e & -> & _) | (t & _ & Hins & ->)]; [congruence|].
  rewrite Hh in Hins. by eapply sql_insert_ok.
Qed.

(** C6. On a well-formed table (the ids follow the insertion order, as in
    every table [run_alignment] builds) the history query of a session
    returns records of that session only, newest first: with T1..TN the
    records of the session in insertion order, exactly TN..T1 when
    N <= 20 and the 20 most recent when N > 20; this is the page
    [show_history] displays. *)
Theorem history_page_newest_first E d sid w :
  table_ok (history w) = true ->
  let ts := session_records (history w) sid in
  let page := select_rows (history w) sid in
  page = most_recent_first 20 ts
  /\ Forall (fun r => row_session_id r = sid /\ In r (rows (history w))) page
  /\ (length ts <= 20 -> page = rev ts)
  /\ (20 < length ts -> page = rev (drop (length ts - 20) ts) /\ length page = 20)
  /\ (dict_get d "session_id" = PStr sid -> sid <> "" -> db_fault E = None ->
      ts <> [] ->
      result_of (show_history E (Some d) w) = render_rows (most_recent_first 20 ts)).
Proof.
  intros Hok ts page. subst page.
  rewrite (select_rows_ok _ _ Hok). fold ts.
  split_and!.
  - done.
  - unfold most_recent_first. apply Forall_rev, Forall_drop.
    subst ts. unfold session_records. apply List.Forall_forall.
    intros r [Hin Heq]%filter_In. split; [by apply String.eqb_eq | done].
  - intros Hlen. unfold most_recent_first.
    by replace (length ts - 20) with 0 by lia.
  - intros Hlen. unfold most_recent_first. split; [done|].
    rewrite length_rev, length_drop. lia.
  - intros Hget Hne Hfault Hts.
    unfold show_history, result_of. simpl. rewrite Hget. simpl.
    apply String.eqb_neq in Hne. rewrite Hne. simpl. rewrite Hfault.
    unfold sql_select_history. rewrite (select_rows_ok _ _ Hok). fold ts.
    destruct (most_recent_first 20 ts) as [|r rest] eqn:Hpage; [|done].
    exfalso. apply Hts. unfold most_recent_first in Hpage.
    apply (f_equal (@length row)) in Hpage.
    rewrite length_rev, length_drop in Hpage. simpl in Hpage.
    destruct ts; [done | simpl in Hpage; lia].
Qed.

(** ** Tool failures *)

Lemma prefix_refl s : String.prefix s s = true.
Proof.
  induction s as [|c s IH]; simpl; [done|]. by destruct (ascii_dec c c).
Qed.

Lemma contains_refl s : contains s s = true.
Proof. destruct s as [|c s]; [done|]. cbn [contains]. by rewrite prefix_refl. Qed.

Lemma contains_app_r s a b : contains s b = true -> contains s (a ++ b) = true.
Proof.
  intros H. induction a as [|c a IH]; [done|].
  change (String c a ++ b) with (String c (a ++ b)). cbn [contains].
  by destruct (String.prefix s (String c (a ++ b))).
Qed.

Lemma universal_newlines_no_cr s : no_cr s = true -> universal_newlines s = s.
Proof.
  induction s as [|c rest IH]; [done|]. cbn [no_cr universal_newlines].
  destruct (Ascii.eqb c cr); [done|]. simpl. intros Hrest. by rewrite IH.
Qed.

(** A supported tool that exits with a non-zero status makes the [try]
    block raise [CalledProcessError] with the captured streams; its
    [stdout] is [None] under MAFFT, whose standard output goes to the
    result file. *)
Lemma try_tool_exits_nonzero E tool task inp outp w rc out err writes :
  tool = "MAFFT" \/ tool = "MUSCLE" ->
  out_open_fault E = None ->
  (forall argv f, spawn E argv f = Exits rc out err writes) ->
  rc <> 0%Z ->
  exists command w',
    try_tool E tool task inp outp w
    = (Raises (CalledProcessError rc
                 (if String.eqb tool "MAFFT" then PNone
                  else PStr (universal_newlines out))
                 (PStr (universal_newlines err))) command, w').
Proof.
  intros Htool Hopen Hspawn Hrc%Z.eqb_neq.
  unfold try_tool, subprocess_run.
  destruct Htool as [-> | ->]; simpl; rewrite ?Hopen, Hspawn, Hrc; simpl; eauto.
Qed.

Lemma run_alignment_exit_tool_failed E name content tool st w rc out err writes :
  tool = "MAFFT" \/ tool = "MUSCLE" ->
  files w !! name = Some content ->
  stage_fault E = None ->
  out_open_fault E = None ->
  (forall argv f, spawn E argv f = Exits rc out err writes) ->
  rc <> 0%Z ->
  result_of (run_alignment_exit E (Some (Named name)) tool st w)
  = ToolFailed
      (py_or (PStr (universal_newlines err))
         (py_or (if String.eqb tool "MAFFT" then PNone
                 else PStr (universal_newlines out))
                (PStr ("Return code: " ++ pretty rc)))).
Proof.
  intros Htool Hname Hstage Hopen Hspawn Hrc.
  unfold run_alignment_exit, result_of.
  set (w0 := logging _ (match st with None => _ | Some _ => w end)).
  assert (Hf0 : files w0 = files w) by (subst w0; by destruct st).
  clearbody w0.
  pose proof (resolve_session_frame E (default ∅ st) w0) as (_ & _ & Hf & _).
  destruct (resolve_session E (default ∅ st) w0) as [[sid d] w1].
  simpl in Hf. unfold stage_input. simpl. rewrite Hf, Hf0, Hname, Hstage.
  match goal with |- context [try_tool E tool ?t ?i ?o ?w] =>
    destruct (try_tool_exits_nonzero E tool t i o w rc out err writes
                Htool Hopen Hspawn Hrc) as (command & w' & ->)
  end.
  reflexivity.
Qed.

(** C8 (amended). When a supported tool runs and exits with a non-zero
    status, the call fails with no artifact and no history write, and the
    result text ends with the detail
    [e.stderr or e.stdout or "Return code: ..."] over the captured
    streams: the captured standard error, verbatim, when there is any;
    otherwise the captured standard output, which exists under MUSCLE
    only (under MAFFT standard output is sent to the result file, nothing
    of it is captured and the detail goes straight to the exit code);
    otherwise the exit code. A captured stream is the text Python reads
    from the pipe: what the tool wrote, with [CR LF] and [CR] read as
    [LF]; it is what the tool wrote when that has no carriage return. *)
Theorem tool_failure_surfaces_diagnostics
    E name content tool st w rc out err writes :
  tool = "MAFFT" \/ tool = "MUSCLE" ->
  files w !! name = Some content ->
  stage_fault E = None ->
  out_open_fault E = None ->
  (forall argv f, spawn E argv f = Exits rc out err writes) ->
  rc <> 0%Z ->
  let r := run_alignment E (Some (Named name)) tool st w in
  let stderr := universal_newlines err in
  let stdout := if String.eqb tool "MAFFT" then PNone
                else PStr (universal_newlines out) in
  let error_detail :=
    if negb (String.eqb stderr "") then stderr
    else if truthy stdout then universal_newlines out
    else "Return code: " ++ pretty rc in
  result_of r
  = Outputs (tool ++ " 运行时出错。" ++ nl ++ "错误信息:" ++ nl ++ error_detail)
            None ("错误：" ++ tool ++ " 运行失败")
  /\ (stderr <> "" -> contains stderr (result_box (result_of r)) = true)
  /\ (no_cr err = true -> err <> "" ->
      contains err (result_box (result_of r)) = true)
  /\ history (world_of r) = history w
  /\ db_conns (world_of r) = db_conns w.
Proof.
  intros Htool Hname Hstage Hopen Hspawn Hrc r stderr stdout error_detail.
  subst r.
  destruct (run_alignment_components E (Some (Named name)) tool st w)
    as (-> & _ & ->).
  pose proof (run_alignment_exit_ledger E (Some (Named name)) tool st w) as Hl.
  cbv zeta in Hl.
  rewrite (run_alignment_exit_tool_failed E name content tool st w rc out err
             writes Htool Hname Hstage Hopen Hspawn Hrc) in *.
  fold stderr stdout. cbn [outputs_of result_box].
  assert (Hdetail : py_str (py_or (PStr stderr)
                      (py_or stdout (PStr ("Return code: " ++ pretty rc))))
                    = error_detail).
  { subst error_detail. unfold py_or at 1. simpl.
    destruct (String.eqb stderr ""); simpl; [|done].
    unfold py_or. destruct (truthy stdout) eqn:Hso; [|done].
    subst stdout. by destruct (String.eqb tool "MAFFT"). }
  rewrite Hdetail.
  assert (Hcontains : stderr <> "" ->
            contains stderr
              (tool ++ " 运行时出错。" ++ nl ++ "错误信息:" ++ nl ++ error_detail)
            = true).
  { intros Hne%String.eqb_neq. subst error_detail. rewrite Hne. simpl.
    do 5 apply contains_app_r. apply contains_refl. }
  split_and!; [done | exact Hcontains | | apply Hl | apply Hl].
  intros Hcr Hne. subst stderr.
  rewrite (universal_newlines_no_cr err Hcr) in Hcontains. by apply Hcontains.
Qed.

Lemma tool_failure_surfaces_diagnostics_witness :
  result_box
    (result_of (run_alignment (Sample.env_failing 1 "" "X")
                  (Some (Named "/tmp/gradio/in.fasta")) "MUSCLE" (Some ∅)
                  Sample.world))
  = "MUSCLE 运行时出错。" ++ nl ++ "错误信息:" ++ nl ++ "X".
Proof.
  destruct (tool_failure_surfaces_diagnostics (Sample.env_failing 1 "" "X")
              "/tmp/gradio/in.fasta" Sample.fasta "MUSCLE" (Some ∅)
              Sample.world 1 "" "X" [])
    as (Hres & _).
  - by right.
  - reflexivity.
  - reflexivity.
  - reflexivity.
  - reflexivity.
  - discriminate.
  - rewrite Hres. reflexivity.
Defined.

(** C8, as stated, fails under MAFFT: the tool exits with a non-zero
    status, writes nothing to standard error and writes ["partial"] to
    standard output; the detail does not fall back to that standard
    output, which went to the result file, but to the exit code. *)
Lemma mafft_failure_skips_standard_output :
  let r := run_alignment (Sample.env_failing (-9) "partial" "")
             Sample.file "MAFFT" (Some ∅) Sample.world in
  result_box (result_of r)
  = "MAFFT 运行时出错。" ++ nl ++ "错误信息:" ++ nl ++ "Return code: -9"
  /\ contains "partial" (result_box (result_of r)) = false
  /\ files (world_of r)
       !! "results/result_0000000000000000000000000000000b_20240101_120000.aln"
     = Some "partial".
Proof. vm_compute. auto. Qed.

(** The fallback to the captured standard output, under MUSCLE. *)
Example failure_detail_muscle_stdout :
  result_box
    (result_of (run_alignment (Sample.env_failing 2 "usage: muscle" "")
                  Sample.file "MUSCLE" (Some ∅) Sample.world))
  = "MUSCLE 运行时出错。" ++ nl ++ "错误信息:" ++ nl ++ "usage: muscle".
Proof. vm_compute. reflexivity. Qed.

(** ** Sample history pages *)

Lemma history_page_newest_first_witness :
  select_rows Sample.ledger3 "A" = rev (session_records Sample.ledger3 "A").
Proof.
  destruct (history_page_newest_first Sample.env ∅ "A"
              (Sample.world_with Sample.ledger3) eq_refl)
    as (_ & _ & Hrev & _).
  apply Hrev. vm_compute. lia.
Defined.

Example page_of_three :
  map row_id (select_rows Sample.ledger3 "A") = [3; 1]%N
  /\ map row_id (select_rows Sample.ledger3 "B") = [2]%N
  /\ select_rows Sample.ledger3 "C" = [].
Proof. vm_compute. auto. Qed.

Example page_of_forty_five :
  length (session_records Sample.ledger45 "A") = 23
  /\ map row_id (select_rows Sample.ledger45 "A")
     = [45; 43; 41; 39; 37; 35; 33; 31; 29; 27;
        25; 23; 21; 19; 17; 15; 13; 11; 9; 7]%N.
Proof. vm_compute. auto. Qed.

Example show_history_of_three :
  result_of (show_history Sample.env (Some {[ "session_id" := PStr "A" ]})
               (Sample.world_with Sample.ledger3))
  = history_header
    ++ "2024-01-01T12:00:01" ++ tab ++ "MAFFT" ++ tab
    ++ "input_t3_20240101_120000.fasta" ++ tab
    ++ "result_t3_20240101_120000.aln" ++ nl
    ++ "2024-01-01T12:00:01" ++ tab ++ "MAFFT" ++ tab
    ++ "input_t1_20240101_120000.fasta" ++ tab
    ++ "result_t1_20240101_120000.aln".
Proof. vm_compute. reflexivity. Qed.

Example show_history_other_session :
  result_of (show_history Sample.env (Some {[ "session_id" := PStr "session-C" ]})
               (Sample.world_with Sample.ledger3))
  = "当前会话 (ID: ...sion-C) 没有历史记录。".
Proof. vm_compute. reflexivity. Qed.

(** An empty string under ['session_id'] is used by [run_alignment] as the
    session it is, and treated by [show_history] as no session at all. *)
Example empty_session_identity :
  resolved_session Sample.env (Some {[ "session_id" := PStr "" ]}) Sample.world
  = PStr ""
  /\ result_of (show_history Sample.env (Some {[ "session_id" := PStr "" ]})
                  Sample.world)
     = "当前会话没有历史记录。".
Proof. vm_compute. auto. Qed.

(** With a [None] state the identity minted by [run_alignment] is stored in
    a dictionary of its own and the caller's state stays [None]. *)
Example none_state_stays_none :
  state_of (run_alignment Sample.env Sample.file "MAFFT" None Sample.world) = None.
Proof. vm_compute. reflexivity. Qed.

(** ** The steps of a submission, one by one *)

(** A submission whose upload can be staged: the world the tool is tried
    in, and how the call ends from there. *)
Lemma run_alignment_exit_staged E name content tool st w :
  files w !! name = Some content ->
  stage_fault E = None ->
  let task := task_id_of E st w in
  let inp := input_path_of task (now_stamp E) in
  let outp := output_path_of task (now_stamp E) in
  let r := run_alignment_exit E (Some (Named name)) tool st w in
  exists w2,
    files w2 = <[inp := content]> (files w)
    /\ run_calls w2 = run_calls w
    /\ history w2 = history w
    /\ db_conns w2 = db_conns w
    /\ (result_of r, world_of r) =
       match try_tool E tool task inp outp w2 with
       | (Returns x, w3) => (x, w3)
       | (Raises ex command, w3) => handle tool task ex command w3
       | (FallsThrough, w3) =>
           match read_output E outp w3 with
           | inr e => (ReadFailed, logging (ErrResultRead outp e) w3)
           | inl text =>
               (Done text outp,
                save_to_db E (resolved_session E st w) task tool inp outp
                  (now_iso E) (logging (InfoResultRead outp) w3))
           end
       end.
Proof.
  intros Hname Hstage task inp outp r. subst task inp outp r.
  unfold run_alignment_exit, resolved_session, task_id_of, result_of, world_of.
  set (w0 := logging _ (match st with None => _ | Some _ => w end)).
  assert (Hw0 : files w0 = files w /\ run_calls w0 = run_calls w
                /\ history w0 = history w /\ db_conns w0 = db_conns w)
    by (subst w0; by destruct st).
  assert (Hid : (resolve_session E (default ∅ st) w0).1
                = (resolve_session E (default ∅ st) w).1
                /\ uuid_draws (resolve_session E (default ∅ st) w0).2
                   = uuid_draws (resolve_session E (default ∅ st) w).2).
  { subst w0. unfold resolve_session.
    by destruct st, (dict_get _ "session_id"). }
  clearbody w0. destruct Hw0 as (Hf0 & Hr0 & Hh0 & Hc0). destruct Hid as [Hid Hdraws].
  pose proof (resolve_session_frame E (default ∅ st) w0) as (Hh & Hc & Hf & Hr).
  destruct (resolve_session E (default ∅ st) w0) as [[sid d] w1].
  destruct (resolve_session E (default ∅ st) w) as [[sid' d'] w1'].
  simpl in *. injection Hid as <- <-. rewrite <- Hdraws.
  set (task := uuid_hex (uuid4 E (uuid_draws w1))).
  unfold stage_input. simpl. rewrite Hf, Hf0, Hname, Hstage.
  exists (logging (InfoInputSaved (input_path_of task (now_stamp E)))
            (with_files (<[input_path_of task (now_stamp E) := content]> (files w))
                        (draw_uuid w1))).
  subst task.
  split_and!; [simpl; congruence ..|].
  destruct (try_tool E tool _ _ _ _) as [[|x|ex command] w3]; simpl.
  - by destruct (read_output E _ w3).
  - done.
  - by destruct (handle tool _ ex command w3).
Qed.

Lemma handle_frame tool task ex command w :
  files (handle tool task ex command w).2 = files w
  /\ run_calls (handle tool task ex command w).2 = run_calls w.
Proof. by destruct ex. Qed.

Lemma save_to_db_frame E sid task tool inp out ts w :
  files (save_to_db E sid task tool inp out ts w) = files w
  /\ run_calls (save_to_db E sid task tool inp out ts w) = run_calls w.
Proof.
  pose proof (save_to_db_cases E sid task tool inp out ts w)
    as (_ & _ & Hf & Hr & _). by simpl in *.
Qed.

(** The same, with the end of the [try] block named: the files and the
    commands in the final world are those the [try] block leaves. *)
Lemma run_alignment_exit_tried E name content tool st w :
  files w !! name = Some content ->
  stage_fault E = None ->
  let task := task_id_of E st w in
  let inp := input_path_of task (now_stamp E) in
  let outp := output_path_of task (now_stamp E) in
  let r := run_alignment_exit E (Some (Named name)) tool st w in
  exists w2 t w3,
    files w2 = <[inp := content]> (files w)
    /\ run_calls w2 = run_calls w
    /\ try_tool E tool task inp outp w2 = (t, w3)
    /\ files (world_of r) = files w3
    /\ run_calls (world_of r) = run_calls w3
    /\ result_of r =
       match t with
       | FallsThrough =>
           match read_output E outp w3 with
           | inl text => Done text outp
           | inr _ => ReadFailed
           end
       | Returns x => x
       | Raises ex command => (handle tool task ex command w3).1
       end.
Proof.
  intros Hname Hstage task inp outp r.
  destruct (run_alignment_exit_staged E name content tool st w Hname Hstage)
    as (w2 & Hf & Hr & _ & _ & Heq).
  fold task inp outp r in Hf, Heq.
  destruct (try_tool E tool task inp outp w2) as [t w3] eqn:Htry.
  exists w2, t, w3.
  assert (Hpair : files (world_of r) = files w3
                  /\ run_calls (world_of r) = run_calls w3
                  /\ result_of r =
                     match t with
                     | FallsThrough =>
                         match read_output E outp w3 with
                         | inl text => Done text outp
                         | inr _ => ReadFailed
                         end
                     | Returns x => x
                     | Raises ex command => (handle tool task ex command w3).1
                     end).
  { clearbody r. destruct t as [|x|ex command].
    - destruct (read_output E outp w3) as [text|e];
        injection Heq as Hres Hworld; rewrite Hres, Hworld; split_and!; try done.
      + by rewrite (proj1 (save_to_db_frame _ _ _ _ _ _ _ _)).
      + by rewrite (proj2 (save_to_db_frame _ _ _ _ _ _ _ _)).
    - injection Heq as Hres Hworld. by rewrite Hres, Hworld.
    - pose proof (handle_frame tool task ex command w3) as [Hhf Hhr].
      destruct (handle tool task ex command w3) as [x w4].
      injection Heq as Hres Hworld. rewrite Hres, Hworld. by split_and!. }
  destruct Hpair as (? & ? & ?). by split_and!.
Qed.

Lemma try_tool_run_calls E tool task inp outp w :
  tool = "MAFFT" \/ tool = "MUSCLE" ->
  out_open_fault E = None ->
  run_calls (try_tool E tool task inp outp w).2
  = (run_calls w ++ [command_of tool inp outp])%list.
Proof.
  intros Htool Hopen. unfold try_tool, subprocess_run, command_of.
  destruct Htool as [-> | ->]; simpl; rewrite ?Hopen; simpl.
  all: destruct (spawn E _ _) as [| e | rc out err writes]; simpl; try done.
  all: by destruct (rc =? 0)%Z.
Qed.

Lemma try_tool_supported_never_returns E tool task inp outp w x w' :
  tool = "MAFFT" \/ tool = "MUSCLE" ->
  try_tool E tool task inp outp w <> (Returns x, w').
Proof.
  intros Htool. unfold try_tool, subprocess_run.
  destruct Htool as [-> | ->]; simpl.
  - destruct (out_open_fault E) as [[?|?]|]; try done.
    destruct (spawn E _ _) as [| e | rc out err writes]; simpl; try done.
    by destruct (rc =? 0)%Z.
  - destruct (spawn E _ _) as [| e | rc out err writes]; simpl; try done.
    by destruct (rc =? 0)%Z.
Qed.

Lemma try_tool_not_found E tool task inp outp w :
  tool = "MAFFT" \/ tool = "MUSCLE" ->
  out_open_fault E = None ->
  (forall argv f, spawn E argv f = NoSuchCommand) ->
  exists w', try_tool E tool task inp outp w
             = (Raises FileNotFoundError (command_of tool inp outp), w').
Proof.
  intros Htool Hopen Hspawn. unfold try_tool, subprocess_run, command_of.
  destruct Htool as [-> | ->]; simpl; rewrite ?Hopen, Hspawn; eauto.
Qed.

Lemma try_tool_mafft_ok E task inp outp w out err writes :
  out_open_fault E = None ->
  (forall argv f, spawn E argv f = Exits 0 out err writes) ->
  exists w', try_tool E "MAFFT" task inp outp w = (FallsThrough, w')
             /\ files w' !! outp = Some out.
Proof.
  intros Hopen Hspawn. unfold try_tool, subprocess_run. simpl.
  rewrite Hopen, Hspawn. simpl. eexists. split; [done|].
  simpl. apply lookup_insert_eq.
Qed.

Lemma try_tool_muscle_ok E task inp outp w out err text :
  (forall argv f, spawn E argv f = Exits 0 out err [(nth 4 argv "", text)]) ->
  exists w', try_tool E "MUSCLE" task inp outp w = (FallsThrough, w')
             /\ files w' !! outp = Some text.
Proof.
  intros Hspawn. unfold try_tool, subprocess_run. simpl.
  rewrite Hspawn. simpl. eexists. split; [done|].
  simpl. apply lookup_insert_eq.
Qed.

Lemma read_output_ok E p w content :
  files w !! p = Some content -> read_fault E = None ->
  read_output E p w = inl (universal_newlines content).
Proof. intros Hp Hf. unfold read_output. by rewrite Hp, Hf. Qed.

Lemma read_output_fault E p w e :
  read_fault E = Some e -> exists e', read_output E p w = inr e'.
Proof.
  intros Hf. unfold read_output. rewrite Hf. destruct (files w !! p); eauto.
Qed.

Lemma try_tool_exit_zero E tool task inp outp w out err writes :
  tool = "MAFFT" \/ tool = "MUSCLE" ->
  out_open_fault E = None ->
  (forall argv f, spawn E argv f = Exits 0 out err writes) ->
  exists w', try_tool E tool task inp outp w = (FallsThrough, w').
Proof.
  intros Htool Hopen Hspawn. unfold try_tool, subprocess_run.
  destruct Htool as [-> | ->]; simpl; rewrite ?Hopen, Hspawn; simpl; eauto.
Qed.

Lemma input_path_not_output t s t' s' : input_path_of t s <> output_path_of t' s'.
Proof. unfold input_path_of, output_path_of. simpl. discriminate. Qed.

(** ** The tool that is not installed *)

(** X1. A supported tool whose executable cannot be found makes the call
    fail with a message naming the command and a status naming the tool;
    nothing is recorded. *)
Theorem missing_command_is_named E name content tool st w :
  tool = "MAFFT" \/ tool = "MUSCLE" ->
  files w !! name = Some content ->
  stage_fault E = None ->
  out_open_fault E = None ->
  (forall argv f, spawn E argv f = NoSuchCommand) ->
  let r := run_alignment E (Some (Named name)) tool st w in
  let command0 := if String.eqb tool "MAFFT" then "mafft" else "muscle" in
  result_of r
  = Outputs ("错误: 命令 '" ++ command0 ++ "' 未找到。请确保 " ++ tool
             ++ " 已安装并已添加到系统 PATH。")
            None ("错误：" ++ tool ++ " 未找到")
  /\ history (world_of r) = history w
  /\ db_conns (world_of r) = db_conns w.
Proof.
  intros Htool Hname Hstage Hopen Hspawn r command0. subst r.
  destruct (run_alignment_components E (Some (Named name)) tool st w)
    as (-> & _ & ->).
  pose proof (run_alignment_exit_ledger E (Some (Named name)) tool st w) as Hl.
  cbv zeta in Hl.
  destruct (run_alignment_exit_tried E name content tool st w Hname Hstage)
    as (w2 & t & w3 & _ & _ & Htry & _ & _ & Hres).
  match type of Htry with try_tool E tool ?a ?b ?c w2 = _ =>
    destruct (try_tool_not_found E tool a b c w2 Htool Hopen Hspawn) as [w' Hnf]
  end.
  rewrite Hnf in Htry. injection Htry as <- <-.
  rewrite Hres in *. simpl. split; [|exact Hl].
  subst command0. unfold command_of. by destruct (String.eqb tool "MAFFT").
Qed.

Lemma missing_command_is_named_witness :
  status_output
    (result_of (run_alignment
                  (mkEnv (uuid4 Sample.env) "20240101_120000" "" None None
                         (fun _ _ => NoSuchCommand) None None Sample.enoent)
                  (Some (Named "/tmp/gradio/in.fasta")) "MUSCLE" (Some ∅)
                  Sample.world))
  = "错误：MUSCLE 未找到".
Proof.
  destruct (missing_command_is_named
              (mkEnv (uuid4 Sample.env) "20240101_120000" "" None None
                     (fun _ _ => NoSuchCommand) None None Sample.enoent)
              "/tmp/gradio/in.fasta" Sample.fasta "MUSCLE" (Some ∅) Sample.world)
    as (Hres & _).
  - by right.
  - reflexivity.
  - reflexivity.
  - reflexivity.
  - reflexivity.
  - rewrite Hres. reflexivity.
Defined.

(** X2. Under MAFFT, when the result file cannot be opened because its
    path does not exist, the [FileNotFoundError] of [open] is caught by the
    handler meant for the missing executable: the call reports that the
    command [mafft] was not found, although no command was run. *)
Theorem mafft_missing_result_path_blames_command E name content st w e :
  files w !! name = Some content ->
  stage_fault E = None ->
  out_open_fault E = Some (NoSuchFile e) ->
  let r := run_alignment E (Some (Named name)) "MAFFT" st w in
  result_of r
  = Outputs "错误: 命令 'mafft' 未找到。请确保 MAFFT 已安装并已添加到系统 PATH。"
            None "错误：MAFFT 未找到"
  /\ run_calls (world_of r) = run_calls w.
Proof.
  intros Hname Hstage Hopen r. subst r.
  destruct (run_alignment_components E (Some (Named name)) "MAFFT" st w)
    as (-> & _ & ->).
  destruct (run_alignment_exit_tried E name content "MAFFT" st w Hname Hstage)
    as (w2 & t & w3 & _ & Hr & Htry & _ & Hr' & Hres).
  unfold try_tool in Htry. simpl in Htry. rewrite Hopen in Htry.
  injection Htry as <- <-. rewrite Hres, Hr', Hr. done.
Qed.

Lemma mafft_missing_result_path_blames_command_witness :
  run_calls
    (world_of (run_alignment
                 (mkEnv (uuid4 Sample.env) "20240101_120000" "" None
                        (Some (NoSuchFile "results")) Sample.aligner None None
                        Sample.enoent)
                 (Some (Named "/tmp/gradio/in.fasta")) "MAFFT" (Some ∅)
                 Sample.world))
  = [].
Proof.
  destruct (mafft_missing_result_path_blames_command
              (mkEnv (uuid4 Sample.env) "20240101_120000" "" None
                     (Some (NoSuchFile "results")) Sample.aligner None None
                        Sample.enoent)
              "/tmp/gradio/in.fasta" Sample.fasta (Some ∅) Sample.world "results")
    as (_ & Hcalls).
  - reflexivity.
  - reflexivity.
  - reflexivity.
  - exact Hcalls.
Defined.

(** ** Successful runs *)

(** X3. Under MAFFT the artifact returned holds exactly what the tool
    wrote to its standard output, whatever else the tool wrote, and the
    text returned is that output as a text-mode read gives it: with
    [CR LF] and [CR] read as [LF], hence the output itself when it has no
    carriage return. *)
Theorem mafft_returns_standard_output E name content st w out err writes :
  files w !! name = Some content ->
  stage_fault E = None ->
  out_open_fault E = None ->
  read_fault E = None ->
  (forall argv f, spawn E argv f = Exits 0 out err writes) ->
  let r := run_alignment E (Some (Named name)) "MAFFT" st w in
  let outp := output_path_of (task_id_of E st w) (now_stamp E) in
  result_of r = Outputs (universal_newlines out) (Some outp) "比对完成 (MAFFT)。"
  /\ files (world_of r) !! outp = Some out
  /\ (no_cr out = true -> result_box (result_of r) = out).
Proof.
  intros Hname Hstage Hopen Hread Hspawn r outp. subst r.
  destruct (run_alignment_components E (Some (Named name)) "MAFFT" st w)
    as (-> & _ & ->).
  destruct (run_alignment_exit_tried E name content "MAFFT" st w Hname Hstage)
    as (w2 & t & w3 & _ & _ & Htry & Hf & _ & Hres).
  match type of Htry with try_tool E _ ?a ?b ?c w2 = _ =>
    destruct (try_tool_mafft_ok E a b c w2 out err writes Hopen Hspawn)
      as (w' & Hok & Hout)
  end.
  rewrite Hok in Htry. injection Htry as <- <-.
  rewrite (read_output_ok E _ w' out Hout Hread) in Hres.
  rewrite Hres, Hf. split_and!; [done | done |].
  intros Hcr. simpl. by apply universal_newlines_no_cr.
Qed.

Lemma mafft_returns_standard_output_witness :
  result_box
    (result_of (run_alignment
                  (Sample.env_failing 0 ("A" ++ String cr (String lf "B")) "")
                  (Some (Named "/tmp/gradio/in.fasta")) "MAFFT"
                  (Some ∅) Sample.world))
  = "A" ++ nl ++ "B".
Proof.
  destruct (mafft_returns_standard_output
              (Sample.env_failing 0 ("A" ++ String cr (String lf "B")) "")
              "/tmp/gradio/in.fasta" Sample.fasta (Some ∅) Sample.world
              ("A" ++ String cr (String lf "B")) "" [])
    as (Hres & _).
  - reflexivity.
  - reflexivity.
  - reflexivity.
  - reflexivity.
  - reflexivity.
  - rewrite Hres. reflexivity.
Defined.

(** X4. Under MUSCLE the command line passes the result path after [-out]:
    when the tool writes its alignment to the file named by its fifth
    argument, the artifact returned holds that text, and the text returned
    is that text as a text-mode read gives it: with [CR LF] and [CR] read
    as [LF], hence the text itself when it has no carriage return. *)
Theorem muscle_returns_out_file E name content st w out err text :
  files w !! name = Some content ->
  stage_fault E = None ->
  read_fault E = None ->
  (forall argv f, spawn E argv f = Exits 0 out err [(nth 4 argv "", text)]) ->
  let r := run_alignment E (Some (Named name)) "MUSCLE" st w in
  let outp := output_path_of (task_id_of E st w) (now_stamp E) in
  result_of r = Outputs (universal_newlines text) (Some outp) "比对完成 (MUSCLE)。"
  /\ files (world_of r) !! outp = Some text
  /\ (no_cr text = true -> result_box (result_of r) = text).
Proof.
  intros Hname Hstage Hread Hspawn r outp. subst r.
  destruct (run_alignment_components E (Some (Named name)) "MUSCLE" st w)
    as (-> & _ & ->).
  destruct (run_alignment_exit_tried E name content "MUSCLE" st w Hname Hstage)
    as (w2 & t & w3 & _ & _ & Htry & Hf & _ & Hres).
  match type of Htry with try_tool E _ ?a ?b ?c w2 = _ =>
    destruct (try_tool_muscle_ok E a b c w2 out err text Hspawn)
      as (w' & Hok & Hout)
  end.
  rewrite Hok in Htry. injection Htry as <- <-.
  rewrite (read_output_ok E _ w' text Hout Hread) in Hres.
  rewrite Hres, Hf. split_and!; [done | done |].
  intros Hcr. simpl. by apply universal_newlines_no_cr.
Qed.

Lemma muscle_returns_out_file_witness :
  result_box
    (result_of (run_alignment
                  (mkEnv (uuid4 Sample.env) "20240101_120000" "" None None
                         (fun argv _ => Exits 0 "" "" [(nth 4 argv "", "ALN")])
                         None None Sample.enoent)
                  (Some (Named "/tmp/gradio/in.fasta")) "MUSCLE" (Some ∅)
                  Sample.world))
  = "ALN".
Proof.
  destruct (muscle_returns_out_file
              (mkEnv (uuid4 Sample.env) "20240101_120000" "" None None
                     (fun argv _ => Exits 0 "" "" [(nth 4 argv "", "ALN")])
                     None None Sample.enoent)
              "/tmp/gradio/in.fasta" Sample.fasta (Some ∅) Sample.world
              "" "" "ALN")
    as (Hres & _).
  - reflexivity.
  - reflexivity.
  - reflexivity.
  - reflexivity.
  - rewrite Hres. reflexivity.
Defined.

(** ** The artifact reference *)

(** C9. The artifact reference [run_alignment] returns is non-null exactly
    when the task reached Completed: every rejection and failure returns
    [None], and the success return carries the output path of the task, a
    file whose text-mode read is the result text returned. The success
    return is reached: it is what a MAFFT run that exits with status 0
    gives when the upload can be staged and the result opened and read. *)
Theorem artifact_iff_completed E f tool st w :
  let x := result_of (run_alignment_exit E f tool st w) in
  let r := run_alignment E f tool st w in
  let outp := output_path_of (task_id_of E st w) (now_stamp E) in
  (file_download (result_of r) <> None <-> terminal_state x = Completed)
  /\ (terminal_state x <> Completed -> file_download (result_of r) = None)
  /\ (terminal_state x = Completed ->
      file_download (result_of r) = Some outp
      /\ exists content,
           files (world_of r) !! outp = Some content
           /\ result_box (result_of r) = universal_newlines content)
  /\ (forall name content out err writes,
        f = Some (Named name) -> tool = "MAFFT" ->
        files w !! name = Some content ->
        stage_fault E = None -> out_open_fault E = None ->
        read_fault E = None ->
        (forall argv fs, spawn E argv fs = Exits 0 out err writes) ->
        terminal_state x = Completed
        /\ file_download (result_of r) = Some outp).
Proof.
  intros x r outp. subst x r outp.
  destruct (run_alignment_components E f tool st w) as (-> & _ & ->).
  split_and!.
  - destruct (result_of (run_alignment_exit E f tool st w)); simpl;
      split; congruence || discriminate.
  - by destruct (result_of (run_alignment_exit E f tool st w)).
  - pose proof (run_alignment_exit_ledger E f tool st w) as H. cbv zeta in H.
    destruct (result_of (run_alignment_exit E f tool st w))
      as [| | | | | | |text path]; try discriminate.
    intros _. destruct H as (-> & w1 & _ & (content & Hfile & ->) & ->).
    split; [done|]. exists content. split; [|done].
    by rewrite (proj1 (save_to_db_frame _ _ _ _ _ _ _ _)).
  - intros name content out err writes -> -> Hname Hstage Hopen Hread Hspawn.
    destruct (run_alignment_exit_tried E name content "MAFFT" st w Hname Hstage)
      as (w2 & t & w3 & _ & _ & Htry & _ & _ & Hres).
    match type of Htry with try_tool E _ ?a ?b ?c w2 = _ =>
      destruct (try_tool_mafft_ok E a b c w2 out err writes Hopen Hspawn)
        as (w' & Hok & Hout)
    end.
    rewrite Hok in Htry. injection Htry as <- <-.
    rewrite (read_output_ok E _ w' out Hout Hread) in Hres.
    by rewrite Hres.
Qed.

Lemma artifact_iff_completed_witness :
  file_download
    (result_of (run_alignment (Sample.env_failing 0 "ALIGNED" "")
                  (Some (Named "/tmp/gradio/in.fasta")) "MAFFT" (Some ∅)
                  Sample.world))
  = Some "results/result_0000000000000000000000000000000b_20240101_120000.aln".
Proof.
  destruct (artifact_iff_completed (Sample.env_failing 0 "ALIGNED" "")
              (Some (Named "/tmp/gradio/in.fasta")) "MAFFT" (Some ∅)
              Sample.world) as (_ & _ & _ & Hreached).
  destruct (Hreached "/tmp/gradio/in.fasta" Sample.fasta "ALIGNED" "" []
              eq_refl eq_refl eq_refl eq_refl eq_refl eq_refl
              (fun _ _ => eq_refl)) as [_ Hsome].
  rewrite Hsome. vm_compute. reflexivity.
Defined.

(** ** Results that cannot be read *)

(** X5. A supported tool that exits with status 0 but whose result cannot
    be read makes the call fail with the read-failure message; nothing is
    recorded and no artifact is returned. *)
Theorem unreadable_result_fails E name content tool st w out err writes e :
  tool = "MAFFT" \/ tool = "MUSCLE" ->
  files w !! name = Some content ->
  stage_fault E = None ->
  out_open_fault E = None ->
  (forall argv f, spawn E argv f = Exits 0 out err writes) ->
  read_fault E = Some e ->
  let r := run_alignment E (Some (Named name)) tool st w in
  result_of r
  = Outputs "比对成功，但读取结果文件时出错。" None "错误：结果读取失败"
  /\ history (world_of r) = history w
  /\ db_conns (world_of r) = db_conns w.
Proof.
  intros Htool Hname Hstage Hopen Hspawn Hread r. subst r.
  destruct (run_alignment_components E (Some (Named name)) tool st w)
    as (-> & _ & ->).
  pose proof (run_alignment_exit_ledger E (Some (Named name)) tool st w) as Hl.
  cbv zeta in Hl.
  destruct (run_alignment_exit_tried E name content tool st w Hname Hstage)
    as (w2 & t & w3 & _ & _ & Htry & _ & _ & Hres).
  match type of Htry with try_tool E _ ?a ?b ?c w2 = _ =>
    destruct (try_tool_exit_zero E tool a b c w2 out err writes Htool Hopen Hspawn)
      as (w' & Hok)
  end.
  rewrite Hok in Htry. injection Htry as <- <-.
  match type of Hres with context [read_output E ?p w'] =>
    destruct (read_output_fault E p w' e Hread) as [e' He']
  end.
  rewrite He' in Hres. rewrite Hres in *. by split.
Qed.

Lemma unreadable_result_fails_witness :
  status_output
    (result_of (run_alignment
                  (mkEnv (uuid4 Sample.env) "20240101_120000" "" None None
                         (Sample.failing 0 "ALIGNED" "")
                         (Some "invalid start byte") None Sample.enoent)
                  (Some (Named "/tmp/gradio/in.fasta")) "MAFFT" (Some ∅)
                  Sample.world))
  = "错误：结果读取失败".
Proof.
  destruct (unreadable_result_fails
              (mkEnv (uuid4 Sample.env) "20240101_120000" "" None None
                     (Sample.failing 0 "ALIGNED" "")
                     (Some "invalid start byte") None Sample.enoent)
              "/tmp/gradio/in.fasta" Sample.fasta "MAFFT" (Some ∅) Sample.world
              "ALIGNED" "" [] "invalid start byte")
    as (Hres & _).
  - by left.
  - reflexivity.
  - reflexivity.
  - reflexivity.
  - reflexivity.
  - reflexivity.
  - rewrite Hres. reflexivity.
Defined.

Lemma read_output_missing E p w :
  files w !! p = None -> exists e, read_output E p w = inr e.
Proof. intros Hp. unfold read_output. rewrite Hp. eauto. Qed.

Lemma try_tool_muscle_silent E task inp outp w out err :
  (forall argv f, spawn E argv f = Exits 0 out err []) ->
  exists w', try_tool E "MUSCLE" task inp outp w = (FallsThrough, w')
             /\ files w' = files w.
Proof.
  intros Hspawn. unfold try_tool, subprocess_run. simpl.
  rewrite Hspawn. simpl. eauto.
Qed.

(** X6. MUSCLE exiting with status 0 without writing anything, when no
    file exists at the result path, is a failed call: the read of the
    result fails, no artifact is returned and nothing is recorded. *)
Theorem muscle_without_result_file_fails E name content st w out err :
  files w !! name = Some content ->
  stage_fault E = None ->
  (forall argv f, spawn E argv f = Exits 0 out err []) ->
  files w !! output_path_of (task_id_of E st w) (now_stamp E) = None ->
  let r := run_alignment E (Some (Named name)) "MUSCLE" st w in
  result_of r
  = Outputs "比对成功，但读取结果文件时出错。" None "错误：结果读取失败"
  /\ history (world_of r) = history w.
Proof.
  intros Hname Hstage Hspawn Hnone r. subst r.
  destruct (run_alignment_components E (Some (Named name)) "MUSCLE" st w)
    as (-> & _ & ->).
  pose proof (run_alignment_exit_ledger E (Some (Named name)) "MUSCLE" st w) as Hl.
  cbv zeta in Hl.
  destruct (run_alignment_exit_tried E name content "MUSCLE" st w Hname Hstage)
    as (w2 & t & w3 & Hf2 & _ & Htry & _ & _ & Hres).
  match type of Htry with try_tool E _ ?a ?b ?c w2 = _ =>
    destruct (try_tool_muscle_silent E a b c w2 out err Hspawn) as (w' & Hok & Hsame)
  end.
  rewrite Hok in Htry. injection Htry as <- <-.
  match type of Hres with context [read_output E ?p w'] =>
    destruct (read_output_missing E p w') as [e' He']
  end.
  { rewrite Hsame, Hf2, lookup_insert_ne by apply input_path_not_output. done. }
  rewrite He' in Hres. rewrite Hres in *. split; [done | apply Hl].
Qed.

Lemma muscle_without_result_file_fails_witness :
  file_download
    (result_of (run_alignment (Sample.env_failing 0 "" "")
                  (Some (Named "/tmp/gradio/in.fasta")) "MUSCLE" (Some ∅)
                  Sample.world))
  = None.
Proof.
  destruct (muscle_without_result_file_fails (Sample.env_failing 0 "" "")
              "/tmp/gradio/in.fasta" Sample.fasta (Some ∅) Sample.world "" "")
    as (Hres & _).
  - reflexivity.
  - reflexivity.
  - reflexivity.
  - vm_compute. reflexivity.
  - rewrite Hres. reflexivity.
Defined.

(** ** One attempt per task *)

(** X7. Once the upload is staged, a supported tool is invoked exactly
    once, whatever the outcome: [mafft --quiet <input>] or
    [muscle -in <input> -out <output>], with the paths of this task. *)
Theorem tool_invoked_exactly_once E name content tool st w :
  tool = "MAFFT" \/ tool = "MUSCLE" ->
  files w !! name = Some content ->
  stage_fault E = None ->
  out_open_fault E = None ->
  let r := run_alignment E (Some (Named name)) tool st w in
  let task := task_id_of E st w in
  run_calls (world_of r)
  = (run_calls w ++
       [command_of tool (input_path_of task (now_stamp E))
                   (output_path_of task (now_stamp E))])%list.
Proof.
  intros Htool Hname Hstage Hopen r task. subst r task.
  destruct (run_alignment_components E (Some (Named name)) tool st w)
    as (_ & _ & ->).
  destruct (run_alignment_exit_tried E name content tool st w Hname Hstage)
    as (w2 & t & w3 & _ & Hr2 & Htry & _ & Hr & _).
  rewrite Hr, <- Hr2.
  match type of Htry with try_tool E tool ?a ?b ?c w2 = _ =>
    rewrite <- (try_tool_run_calls E tool a b c w2 Htool Hopen)
  end.
  by rewrite Htry.
Qed.

Lemma tool_invoked_exactly_once_witness :
  run_calls (world_of (run_alignment Sample.env
                         (Some (Named "/tmp/gradio/in.fasta")) "MUSCLE"
                         (Some ∅) Sample.world))
  = [["muscle"; "-in";
      "uploads/input_0000000000000000000000000000000b_20240101_120000.fasta";
      "-out";
      "results/result_0000000000000000000000000000000b_20240101_120000.aln"]].
Proof.
  rewrite (tool_invoked_exactly_once Sample.env "/tmp/gradio/in.fasta"
             Sample.fasta "MUSCLE" (Some ∅) Sample.world).
  - vm_compute. reflexivity.
  - by right.
  - reflexivity.
  - reflexivity.
  - reflexivity.
Defined.

(** X8. With a tool among the choices of the radio group the invalid-tool
    return is never taken, whatever the file and the environment. *)
Theorem radio_choice_is_never_invalid E f tool st w :
  In tool tool_choices ->
  result_of (run_alignment_exit E f tool st w) <> InvalidTool
  /\ status_output (result_of (run_alignment E f tool st w)) <> "错误：无效工具".
Proof.
  intros Hin.
  assert (Htool : tool = "MAFFT" \/ tool = "MUSCLE").
  { destruct Hin as [<- | [<- | []]]; auto. }
  assert (Hexit : result_of (run_alignment_exit E f tool st w) <> InvalidTool).
  { unfold run_alignment_exit, result_of.
    destruct f as [file|]; [|done].
    destruct (resolve_session E _ _) as [[sid d] w1].
    destruct (stage_input E file _ _) as [w2|[e w2]]; [|done].
    destruct (try_tool E tool _ _ _ _) as [[|x|ex command] w3] eqn:Htry.
    - by destruct (read_output E _ w3).
    - by apply try_tool_supported_never_returns in Htry.
    - pose proof (handle_not_done tool
                    (uuid_hex (uuid4 E (uuid_draws w1))) ex command w3) as Hnd.
      destruct (handle tool _ ex command w3) as [x w4]. simpl in *.
      intros ->. discriminate. }
  split; [exact Hexit|].
  destruct (run_alignment_components E f tool st w) as (-> & _ & _).
  destruct (result_of (run_alignment_exit E f tool st w)); simpl; try done.
  all: destruct Htool as [-> | ->]; discriminate.
Qed.

Lemma radio_choice_is_never_invalid_witness :
  result_of (run_alignment_exit Sample.env Sample.file "MAFFT" (Some ∅)
               Sample.world) <> InvalidTool.
Proof.
  apply (radio_choice_is_never_invalid Sample.env Sample.file "MAFFT" (Some ∅)
           Sample.world).
  simpl. auto.
Defined.

(** ** Identities drawn and stored *)

(** Whether and how the copy fails depends on the world through the files
    only. *)
Lemma stage_input_fails_same_files E file p w w' e wf :
  files w' = files w ->
  stage_input E file p w = inr (e, wf) ->
  exists wf', stage_input E file p w' = inr (e, wf')
              /\ files wf' = files wf
              /\ ledger wf' = ledger w'
              /\ run_calls wf' = run_calls w'.
Proof.
  intros Hf. unfold stage_input. rewrite Hf.
  destruct file as [name|]; [|intros [= <- <-]; by eexists].
  destruct (files w !! name); [|intros [= <- <-]; by eexists].
  destruct (stage_fault E) as [[e'|e' remains]|]; [| |done].
  - intros [= <- <-]. by eexists.
  - intros [= <- <-]. eexists. by split_and!.
Qed.

Lemma stage_input_fails_files E file p w e wf :
  stage_input E file p w = inr (e, wf) ->
  match stage_fault E with
  | Some (CopyInterrupted _ remains) =>
      files wf = files w \/ files wf = <[p := remains]> (files w)
  | _ => files wf = files w
  end.
Proof.
  unfold stage_input.
  destruct file as [name|];
    [|intros [= <- <-]; destruct (stage_fault E) as [[?|??]|]; auto].
  destruct (files w !! name);
    [|intros [= <- <-]; destruct (stage_fault E) as [[?|??]|]; auto].
  destruct (stage_fault E) as [[e'|e' remains]|]; [| |done].
  - by intros [= <- <-].
  - intros [= <- <-]. by right.
Qed.

Lemma uuid_draws_ledger w w' : ledger w' = ledger w -> uuid_draws w' = uuid_draws w.
Proof. unfold ledger. by intros [= _ _ ->]. Qed.

(** Every submission with a file draws the task identity right after the
    session is resolved, and nothing else later. *)
Lemma run_alignment_exit_draws E file tool st w :
  uuid_draws (world_of (run_alignment_exit E (Some file) tool st w))
  = S (uuid_draws (world_of (resolve_session E (default ∅ st) w))).
Proof.
  unfold run_alignment_exit, world_of.
  set (w0 := logging _ (match st with None => _ | Some _ => w end)).
  assert (Hdraws : uuid_draws (resolve_session E (default ∅ st) w0).2
                   = uuid_draws (resolve_session E (default ∅ st) w).2).
  { subst w0. unfold resolve_session.
    by destruct st, (dict_get _ "session_id"). }
  clearbody w0. rewrite <- Hdraws.
  destruct (resolve_session E (default ∅ st) w0) as [[sid d] w1]. simpl.
  destruct (stage_input E file _ _) as [w2|[e w2]] eqn:Hstage.
  2:{ apply stage_input_fails_frame in Hstage as (Hlw & _).
      simpl. by apply uuid_draws_ledger in Hlw. }
  apply stage_input_inv in Hstage as (name & content & _ & _ & _ & ->).
  match goal with |- context [try_tool E tool ?t ?i ?o ?w] =>
    pose proof (uuid_draws_ledger _ _ (try_tool_ledger E tool t i o w)) as Hl;
    destruct (try_tool E tool t i o w) as [[|x|ex command] w3]
  end; simpl in Hl.
  - destruct (read_output E _ w3) as [text|e]; simpl; [|done].
    match goal with |- context [save_to_db E ?a ?b ?c ?d ?e ?g ?w] =>
      pose proof (save_to_db_cases E a b c d e g w) as (_ & Hu & _)
    end.
    simpl in Hu. by rewrite Hu.
  - done.
  - match goal with |- context [handle tool ?t ex command w3] =>
      pose proof (uuid_draws_ledger _ _ (handle_ledger tool t ex command w3)) as Hl'
    end.
    destruct (handle tool _ ex command w3) as [x w4]. simpl in *. congruence.
Qed.

(** X9. Whatever its outcome, a submission with a file leaves the session
    dictionary carrying the identity the submission ran under, and draws
    exactly one task identity, after the session identity when that one is
    new: one draw when the dictionary carried an identity, two when it did
    not. *)
Theorem submission_stores_identity E file tool d w :
  let r := run_alignment E (Some file) tool (Some d) w in
  exists s d',
    state_of r = Some d'
    /\ dict_get d' "session_id" = PStr s
    /\ resolved_session E (Some d) w = PStr s
    /\ uuid_draws (world_of r)
       = match dict_get d "session_id" with
         | PNone => 2 + uuid_draws w
         | PStr _ => 1 + uuid_draws w
         end
    /\ task_id_of E (Some d) w
       = uuid_hex (uuid4 E (match dict_get d "session_id" with
                            | PNone => S (uuid_draws w)
                            | PStr _ => uuid_draws w
                            end)).
Proof.
  intros r. subst r.
  destruct (run_alignment_components E (Some file) tool (Some d) w)
    as (_ & -> & ->).
  rewrite run_alignment_exit_state, run_alignment_exit_draws.
  unfold resolved_session, task_id_of. simpl.
  destruct (resolve_session_stored E d w) as (s & Hid & Hstored).
  exists s, (state_of (resolve_session E d w)). split_and!; try done.
  all: unfold resolve_session, world_of;
    by destruct (dict_get d "session_id").
Qed.

(** ** Uploads that cannot be staged *)

(** X10. When the upload cannot be copied to the staging area (the object
    has no [name], the uploaded file is gone, or the copy raises), the
    call fails with the text of the exception; no command is run, the
    database is not opened and the table is unchanged. The files are as
    they were, except when the copy is interrupted after the input path
    has been created: then that path, and no other, holds what the copy
    left. *)
Theorem staging_failure_runs_and_records_nothing E file tool st w e wf :
  let inp := input_path_of (task_id_of E st w) (now_stamp E) in
  stage_input E file inp w = inr (e, wf) ->
  let r := run_alignment E (Some file) tool st w in
  result_of r = Outputs ("处理上传文件时出错: " ++ e) None "错误：文件保存失败"
  /\ run_calls (world_of r) = run_calls w
  /\ history (world_of r) = history w
  /\ db_conns (world_of r) = db_conns w
  /\ (forall p, p <> inp -> files (world_of r) !! p = files w !! p)
  /\ match stage_fault E with
     | Some (CopyInterrupted _ remains) =>
         files (world_of r) = files w
         \/ files (world_of r) = <[inp := remains]> (files w)
     | _ => files (world_of r) = files w
     end.
Proof.
  intros inp Hfail r. subst inp r.
  pose proof (stage_input_fails_files _ _ _ _ _ _ Hfail) as Hfiles.
  pose proof (stage_input_fails_frame _ _ _ _ _ _ Hfail) as (_ & _ & _ & Hother).
  destruct (run_alignment_components E (Some file) tool st w) as (-> & _ & ->).
  unfold run_alignment_exit, result_of, world_of, task_id_of in *.
  set (w0 := logging _ (match st with None => _ | Some _ => w end)).
  assert (Hw0 : files w0 = files w /\ run_calls w0 = run_calls w
                /\ history w0 = history w /\ db_conns w0 = db_conns w)
    by (subst w0; by destruct st).
  assert (Hdraws : uuid_draws (resolve_session E (default ∅ st) w0).2
                   = uuid_draws (resolve_session E (default ∅ st) w).2).
  { subst w0. unfold resolve_session.
    by destruct st, (dict_get _ "session_id"). }
  clearbody w0. destruct Hw0 as (Hf0 & Hr0 & Hh0 & Hc0).
  pose proof (resolve_session_frame E (default ∅ st) w0) as (Hh & Hc & Hf & Hr).
  destruct (resolve_session E (default ∅ st) w0) as [[sid d] w1]. simpl in *.
  unfold world_of in *. rewrite <- Hdraws in Hfail, Hfiles, Hother |- *.
  destruct (stage_input_fails_same_files E file
              (input_path_of (uuid_hex (uuid4 E (uuid_draws w1))) (now_stamp E))
              w (draw_uuid w1) e wf)
    as (wf' & -> & Hfw & Hlw & Hrw); [simpl; congruence | exact Hfail |].
  unfold ledger in Hlw. simpl in Hlw, Hrw. injection Hlw as Hhw Hcw _.
  simpl. rewrite Hfw.
  split_and!; [done | congruence | congruence | congruence
               | exact Hother | exact Hfiles].
Qed.

Lemma staging_failure_runs_and_records_nothing_witness :
  let E := mkEnv (uuid4 Sample.env) "20240101_120000" ""
                 (Some (CopyInterrupted "[Errno 28] No space left on device" ""))
                 None Sample.aligner None None Sample.enoent in
  let r := run_alignment E (Some (Named "/tmp/gradio/in.fasta")) "MAFFT"
             (Some ∅) Sample.world in
  result_box (result_of r)
  = "处理上传文件时出错: [Errno 28] No space left on device"
  /\ run_calls (world_of r) = [].
Proof.
  intros E r. subst r.
  destruct (staging_failure_runs_and_records_nothing E
              (Named "/tmp/gradio/in.fasta") "MAFFT" (Some ∅) Sample.world
              "[Errno 28] No space left on device"
              (with_files
                 (<["uploads/input_0000000000000000000000000000000b_20240101_120000.fasta"
                    := ""]> (files Sample.world)) Sample.world))
    as (Hres & Hcalls & _).
  - vm_compute. reflexivity.
  - split; [rewrite Hres; reflexivity | exact Hcalls].
Defined.

(** An interrupted copy leaves the input path behind. *)
Example interrupted_copy_leaves_file :
  let E := mkEnv (uuid4 Sample.env) "20240101_120000" ""
                 (Some (CopyInterrupted "[Errno 28] No space left on device" ""))
                 None Sample.aligner None None Sample.enoent in
  files (world_of (run_alignment E Sample.file "MAFFT" (Some ∅) Sample.world))
    !! "uploads/input_0000000000000000000000000000000b_20240101_120000.fasta"
  = Some "".
Proof. vm_compute. reflexivity. Qed.

(** ** The table across submissions *)

(** What a submission does to the table: nothing, or one insert for the
    session and task of the submission. *)
Lemma run_alignment_history_cases E f tool st w :
  let w' := world_of (run_alignment E f tool st w) in
  history w' = history w
  \/ (exists text path,
        result_of (run_alignment_exit E f tool st w) = Done text path)
     /\ db_fault E = None
     /\ sql_insert (history w) (resolved_session E st w) (task_id_of E st w) tool
          (input_path_of (task_id_of E st w) (now_stamp E))
          (output_path_of (task_id_of E st w) (now_stamp E)) (now_iso E)
        = inl (history w').
Proof.
  intros w'. subst w'.
  destruct (run_alignment_components E f tool st w) as (_ & _ & ->).
  pose proof (run_alignment_exit_ledger E f tool st w) as H. cbv zeta in H.
  destruct (result_of (run_alignment_exit E f tool st w)) as [| | | | | | |text path];
    try (left; apply H).
  destruct H as (_ & w1 & Hl & _ & ->). unfold ledger in Hl. injection Hl as Hh _.
  match goal with |- context [save_to_db E ?a ?b ?c ?d ?e ?g w1] =>
    pose proof (save_to_db_cases E a b c d e g w1) as (_ & _ & _ & _ & Hcases)
  end.
  cbv zeta in Hcases. rewrite Hh in Hcases.
  destruct Hcases as [(e & Hsame & _) | (t & Hnof & Hins & Ht)]; [by left|].
  right. split; [eauto|]. split; [done|]. by rewrite Ht.
Qed.

Lemma sql_insert_unique t sid task tool inp out ts t' :
  task_ids_unique t ->
  sql_insert t sid task tool inp out ts = inl t' ->
  task_ids_unique t'.
Proof.
  unfold task_ids_unique, sql_insert. intros Hnd.
  destruct sid as [|s]; [done|].
  destruct (existsb _ _) eqn:Hex; [done|]. intros [= <-]. simpl.
  rewrite map_app. simpl. apply NoDup_app. split_and!; [done| |].
  - intros x Hx Hx'. apply list_elem_of_In in Hx, Hx'.
    destruct Hx' as [Heq | []].
    apply in_map_iff in Hx as (r & Hr & Hin).
    assert (Htrue : existsb (fun r0 => String.eqb (row_task_id r0) task)
                      (rows t) = true).
    { apply existsb_exists. exists r. split; [done|].
      apply String.eqb_eq. congruence. }
    congruence.
  - apply NoDup_singleton.
Qed.

(** X11. Every call of [run_alignment] keeps the table sound: the row ids
    follow the insertion order and no two rows carry the same task
    identity. *)
Theorem run_alignment_keeps_table_sound E f tool st w :
  table_ok (history w) = true ->
  task_ids_unique (history w) ->
  let w' := world_of (run_alignment E f tool st w) in
  table_ok (history w') = true /\ task_ids_unique (history w').
Proof.
  intros Hok Huniq w'. subst w'.
  destruct (run_alignment_history_cases E f tool st w) as [-> | (_ & _ & Hins)];
    [done|].
  split; [by eapply sql_insert_ok | by eapply sql_insert_unique].
Qed.

Lemma run_alignment_keeps_table_sound_witness :
  table_ok (history (world_of (run_alignment Sample.env Sample.file "MAFFT"
                                 (Some ∅) Sample.world3)))
  = true.
Proof.
  apply (run_alignment_keeps_table_sound Sample.env Sample.file "MAFFT" (Some ∅)
           Sample.world3).
  - reflexivity.
  - unfold task_ids_unique. apply (bool_decide_unpack _). vm_compute. exact I.
Defined.

Lemma select_rows_records t sid :
  select_rows t sid = take 20 (order_by_id_desc (session_records t sid)).
Proof. reflexivity. Qed.

(** The text [show_history] returns, as a function of the table. *)
Lemma show_history_result E st w :
  result_of (show_history E st w)
  = let session_id := dict_get (default ∅ st) "session_id" in
    if negb (truthy session_id) then "当前会话没有历史记录。"
    else match db_fault E with
         | Some e => "无法加载历史记录: " ++ e
         | None =>
             match select_rows (history w) (py_str session_id) with
             | [] => "当前会话 (ID: ..." ++ last_chars 6 (py_str session_id)
                     ++ ") 没有历史记录。"
             | rs => render_rows rs
             end
         end.
Proof.
  unfold show_history, result_of, sql_select_history, render_rows.
  cbv zeta.
  destruct (negb (truthy (dict_get (default ∅ st) "session_id"))); [done|].
  destruct (db_fault E); [done|].
  destruct st as [d|]; simpl; by destruct (select_rows (history w) _).
Qed.

(** The history text depends on the world through the page only. *)
Lemma show_history_same_page E st w w' :
  (forall s, dict_get (default ∅ st) "session_id" = PStr s ->
             select_rows (history w') s = select_rows (history w) s) ->
  result_of (show_history E st w') = result_of (show_history E st w).
Proof.
  intros Hpage. rewrite !show_history_result. cbv zeta.
  destruct (dict_get (default ∅ st) "session_id") as [|s] eqn:Hget; [done|].
  cbn [py_str]. by rewrite (Hpage s eq_refl).
Qed.

(** X12. A submission made under one session never changes what
    [show_history] answers for a state carrying another identity. *)
Theorem other_sessions_history_untouched E f tool st w E' d' :
  dict_get d' "session_id" <> resolved_session E st w ->
  result_of (show_history E' (Some d')
               (world_of (run_alignment E f tool st w)))
  = result_of (show_history E' (Some d') w).
Proof.
  intros Hne. apply show_history_same_page. simpl. intros s Hs.
  destruct (run_alignment_history_cases E f tool st w) as [-> | (_ & _ & Hins)];
    [done|].
  destruct (resolved_session_is_str E st w) as [s0 Hs0].
  rewrite Hs0 in Hins.
  rewrite !select_rows_records, (session_records_insert _ s _ _ _ _ _ _ s0 Hins).
  assert (Hdiff : String.eqb s0 s = false).
  { apply String.eqb_neq. intros ->. congruence. }
  by rewrite Hdiff, app_nil_r.
Qed.

Lemma other_sessions_history_untouched_witness :
  result_of (show_history Sample.env (Some {[ "session_id" := PStr "A" ]})
               (world_of (run_alignment Sample.env Sample.file "MAFFT" (Some ∅)
                            Sample.world3)))
  = result_of (show_history Sample.env (Some {[ "session_id" := PStr "A" ]})
                 Sample.world3).
Proof.
  apply (other_sessions_history_untouched Sample.env Sample.file "MAFFT" (Some ∅)
           Sample.world3 Sample.env {[ "session_id" := PStr "A" ]}).
  vm_compute. discriminate.
Defined.

(** ** A completed task on the history page *)

Lemma most_recent_first_snoc ts r :
  most_recent_first 20 (ts ++ [r])
  = r :: take 19 (most_recent_first 20 ts).
Proof.
  rewrite <- !take_rev_most_recent, rev_app_distr. simpl.
  by rewrite take_take.
Qed.

Lemma select_rows_after_completion E f tool st w text path s :
  table_ok (history w) = true ->
  result_of (run_alignment_exit E f tool st w) = Done text path ->
  db_fault E = None ->
  existsb (fun x => String.eqb (row_task_id x) (task_id_of E st w))
          (rows (history w)) = false ->
  resolved_session E st w = PStr s ->
  select_rows (history (world_of (run_alignment E f tool st w))) s
  = recorded_row E tool st w s :: take 19 (select_rows (history w) s).
Proof.
  intros Hok Hdone Hnof Hfresh Hs.
  pose proof (run_alignment_table_ok E f tool st w Hok) as Hok'.
  destruct (run_alignment_components E f tool st w) as (_ & _ & Hw).
  rewrite Hw in *.
  pose proof (run_alignment_exit_ledger E f tool st w) as H. cbv zeta in H.
  rewrite Hdone in H. destruct H as (_ & w1 & Hl & _ & Hw').
  unfold ledger in Hl. injection Hl as Hh _.
  rewrite Hw' in *. clear Hw'.
  unfold save_to_db in *. rewrite Hnof in *.
  assert (Hins : sql_insert (history (connect w1)) (resolved_session E st w)
                   (task_id_of E st w) tool
                   (input_path_of (task_id_of E st w) (now_stamp E))
                   (output_path_of (task_id_of E st w) (now_stamp E)) (now_iso E)
                 = inl (Table (rows (history w) ++ [recorded_row E tool st w s])
                              (N.succ (seq (history w))))).
  { unfold sql_insert. simpl. by rewrite Hs, Hh, Hfresh. }
  rewrite Hins in *. simpl in Hok' |- *.
  rewrite (select_rows_ok _ _ Hok'), (select_rows_ok _ _ Hok).
  unfold session_records. simpl. rewrite List.filter_app. simpl.
  rewrite String.eqb_refl. apply most_recent_first_snoc.
Qed.

(** X13. A task that completes and is recorded heads the history page of
    its session, before the 19 most recent earlier records of that
    session. *)
Theorem completed_task_heads_the_page E f tool st w text path s :
  table_ok (history w) = true ->
  result_of (run_alignment_exit E f tool st w) = Done text path ->
  db_fault E = None ->
  existsb (fun x => String.eqb (row_task_id x) (task_id_of E st w))
          (rows (history w)) = false ->
  resolved_session E st w = PStr s ->
  select_rows (history (world_of (run_alignment E f tool st w))) s
  = recorded_row E tool st w s :: take 19 (select_rows (history w) s).
Proof. apply select_rows_after_completion. Qed.

Lemma completed_task_heads_the_page_witness :
  map row_id
    (select_rows
       (history (world_of (run_alignment Sample.env Sample.file "MAFFT"
                             (Some {[ "session_id" := PStr "A" ]})
                             Sample.world3)))
       "A")
  = [4; 3; 1]%N.
Proof.
  rewrite (completed_task_heads_the_page Sample.env Sample.file "MAFFT"
             (Some {[ "session_id" := PStr "A" ]})
             Sample.world3 Sample.fasta
             "results/result_0000000000000000000000000000000a_20240101_120000.aln"
             "A").
  - vm_compute. reflexivity.
  - reflexivity.
  - vm_compute. reflexivity.
  - reflexivity.
  - vm_compute. reflexivity.
  - vm_compute. reflexivity.
Defined.

(** ** Base names on the history page *)

Lemma no_slash_app a b : no_slash (a ++ b) = no_slash a && no_slash b.
Proof.
  induction a as [|c a IH]; [done|].
  change (String c a ++ b) with (String c (a ++ b)). cbn [no_slash].
  rewrite IH. by destruct (Ascii.eqb c "/").
Qed.

Lemma prefix_app p s : String.prefix p (p ++ s) = true.
Proof.
  induction p as [|c p IH]; [by destruct s|].
  change (String c p ++ s) with (String c (p ++ s)). cbn [String.prefix].
  by destruct (ascii_dec c c).
Qed.

Lemma prefix_app_inv p s : String.prefix p s = true -> exists t, s = p ++ t.
Proof.
  revert s. induction p as [|c p IH]; intros s; [by exists s|].
  destruct s as [|c' s]; [done|]. cbn [String.prefix].
  destruct (ascii_dec c c') as [<-|]; [|done].
  intros [t ->]%IH. by exists t.
Qed.

Lemma drop_str_app p s : drop_str (String.length p) (p ++ s) = s.
Proof. induction p as [|c p IH]; [by destruct s|]. exact IH. Qed.

(** A pattern with a ['/'] does not occur in a string without one. *)
Lemma sql_replace_go_no_slash fuel pat rep s :
  no_slash pat = false -> no_slash s = true ->
  sql_replace_go fuel pat rep s = s.
Proof.
  intros Hpat. revert s. induction fuel as [|fuel IH]; intros s Hs; [done|].
  destruct s as [|c rest]; [done|]. cbn [sql_replace_go].
  destruct (String.prefix pat (String c rest)) eqn:Hpre.
  - apply prefix_app_inv in Hpre as [t Ht]. rewrite Ht, no_slash_app, Hpat in Hs.
    done.
  - cbn [no_slash] in Hs. apply andb_prop in Hs as [_ Hrest]. by rewrite IH.
Qed.

Lemma sql_replace_go_step fuel pat rep c rest :
  sql_replace_go (S fuel) pat rep (String c rest)
  = if String.prefix pat (String c rest)
    then rep ++ sql_replace_go fuel pat rep
                  (drop_str (String.length pat) (String c rest))
    else String c (sql_replace_go fuel pat rep rest).
Proof. reflexivity. Qed.

Lemma sql_replace_strips_directory pat s :
  no_slash pat = false -> no_slash s = true ->
  sql_replace (pat ++ s) pat "" = s.
Proof.
  intros Hpat Hs. unfold sql_replace.
  destruct pat as [|c pat]; [done|].
  set (p := String c pat) in *.
  change (String.length (p ++ s)) with (S (String.length (pat ++ s))).
  change (p ++ s) with (String c (pat ++ s)) at 1.
  rewrite sql_replace_go_step.
  change (String c (pat ++ s)) with (p ++ s).
  rewrite prefix_app, drop_str_app.
  change ("" ++ ?x) with x.
  by apply sql_replace_go_no_slash.
Qed.

Lemma hex_digit_no_slash n : Ascii.eqb (hex_digit n) "/" = false.
Proof.
  destruct n as [|p]; [done|].
  do 4 (destruct p as [p|p|]; try done).
Qed.

Lemma no_slash_hex_fixed k n : no_slash (hex_fixed k n) = true.
Proof.
  revert n. induction k as [|k IH]; intros n; [done|].
  cbn [hex_fixed]. rewrite no_slash_app, IH. cbn [no_slash].
  by rewrite hex_digit_no_slash.
Qed.

(** X14. On the history page a recorded task shows its timestamp, its
    tool and the base names of its two artifacts: the directory prefixes
    [uploads/] and [results/] are stripped (the timestamp of the file
    names, made of digits and an underscore, has no ['/']). *)
Theorem recorded_row_shows_base_names E tool st w s :
  no_slash (now_stamp E) = true ->
  select_columns (recorded_row E tool st w s)
  = [ now_iso E; tool;
      "input_" ++ task_id_of E st w ++ "_" ++ now_stamp E ++ ".fasta";
      "result_" ++ task_id_of E st w ++ "_" ++ now_stamp E ++ ".aln" ].
Proof.
  intros Hstamp. unfold select_columns, recorded_row. cbn [row_timestamp row_tool
    row_input_file row_output_file].
  unfold input_path_of, output_path_of. cbv zeta.
  assert (Htask : no_slash (task_id_of E st w) = true)
    by apply no_slash_hex_fixed.
  rewrite !sql_replace_strips_directory; try done.
  all: rewrite !no_slash_app, Htask, Hstamp; done.
Qed.

Lemma recorded_row_shows_base_names_witness :
  select_columns (recorded_row Sample.env "MAFFT" (Some ∅) Sample.world "s")
  = [ "2024-01-01T12:00:01"; "MAFFT";
      "input_0000000000000000000000000000000b_20240101_120000.fasta";
      "result_0000000000000000000000000000000b_20240101_120000.aln" ].
Proof.
  rewrite (recorded_row_shows_base_names Sample.env "MAFFT" (Some ∅) Sample.world "s").
  - vm_compute. reflexivity.
  - reflexivity.
Defined.

Lemma uuid_str_nonempty u : uuid_str u <> "".
Proof.
  unfold uuid_str. cbv zeta.
  by destruct (String.substring 0 8 (uuid_hex u)).
Qed.

(** X15. After a submission that completes and is recorded, made with a
    dictionary that does not hold the empty string as its identity, the
    history button of the same client shows the page of its session with
    the row of that task first. *)
Theorem history_shows_completed_submission E f tool d w text path s E' :
  table_ok (history w) = true ->
  result_of (run_alignment_exit E f tool (Some d) w) = Done text path ->
  db_fault E = None ->
  existsb (fun x => String.eqb (row_task_id x) (task_id_of E (Some d) w))
          (rows (history w)) = false ->
  resolved_session E (Some d) w = PStr s ->
  dict_get d "session_id" <> PStr "" ->
  db_fault E' = None ->
  let r := run_alignment E f tool (Some d) w in
  result_of (show_history E' (state_of r) (world_of r))
  = render_rows (recorded_row E tool (Some d) w s
                   :: take 19 (select_rows (history w) s)).
Proof.
  intros Hok Hdone Hnof Hfresh Hs Hnonempty Hnof' r. subst r.
  assert (Hne : s <> "").
  { unfold resolved_session in Hs. simpl in Hs.
    destruct (dict_get d "session_id") as [|s0] eqn:Hget.
    - rewrite resolve_session_absent in Hs by done.
      unfold result_of in Hs. simpl in Hs. injection Hs as <-.
      apply uuid_str_nonempty.
    - rewrite resolve_session_present with (s := s0) in Hs by done.
      unfold result_of in Hs. simpl in Hs. injection Hs as <-. congruence. }
  rewrite show_history_result. cbv zeta.
  destruct (run_alignment_components E f tool (Some d) w) as (_ & -> & _).
  rewrite run_alignment_exit_state.
  destruct f as [file|]; [|done].
  destruct (resolve_session_stored E d w) as (s' & Hid & Hstored).
  unfold resolved_session in Hs. simpl in Hs. rewrite Hs in Hid.
  injection Hid as <-. simpl. rewrite Hstored. cbn [truthy py_str].
  apply String.eqb_neq in Hne. rewrite Hne, Hnof'. cbn [negb].
  by rewrite (select_rows_after_completion E (Some file) tool (Some d) w
                text path s Hok Hdone Hnof Hfresh Hs).
Qed.

Lemma history_shows_completed_submission_witness :
  let r := run_alignment Sample.env Sample.file "MAFFT"
             (Some {[ "session_id" := PStr "B" ]}) Sample.world3 in
  result_of (show_history Sample.env (state_of r) (world_of r))
  = history_header
    ++ "2024-01-01T12:00:01" ++ tab ++ "MAFFT" ++ tab
    ++ "input_0000000000000000000000000000000a_20240101_120000.fasta" ++ tab
    ++ "result_0000000000000000000000000000000a_20240101_120000.aln" ++ nl
    ++ "2024-01-01T12:00:01" ++ tab ++ "MAFFT" ++ tab
    ++ "input_t2_20240101_120000.fasta" ++ tab
    ++ "result_t2_20240101_120000.aln".
Proof.
  intros r. subst r.
  rewrite (history_shows_completed_submission Sample.env Sample.file "MAFFT"
             {[ "session_id" := PStr "B" ]} Sample.world3 Sample.fasta
             "results/result_0000000000000000000000000000000a_20240101_120000.aln"
             "B" Sample.env).
  - vm_compute. reflexivity.
  - reflexivity.
  - vm_compute. reflexivity.
  - reflexivity.
  - vm_compute. reflexivity.
  - vm_compute. reflexivity.
  - vm_compute. discriminate.
  - reflexivity.
Defined.

(** ** Artifact paths *)

Lemma length_app_str a b :
  String.length (a ++ b) = String.length a + String.length b.
Proof. induction a as [|c a IH]; [done|]. simpl. by rewrite IH. Qed.

Lemma app_str_inj_l a b b' : a ++ b = a ++ b' -> b = b'.
Proof. induction a as [|c a IH]; [done|]. intros [= H]. by apply IH. Qed.

Lemma app_str_inj_length a a' b b' :
  String.length a = String.length a' -> a ++ b = a' ++ b' -> a = a' /\ b = b'.
Proof.
  revert a'. induction a as [|c a IH]; intros [|c' a']; try done.
  simpl. intros [= Hlen] [= -> Heq]. destruct (IH a' Hlen Heq) as [-> ->]. done.
Qed.

Lemma app_str_inj_r a a' b : a ++ b = a' ++ b -> a = a'.
Proof.
  intros Heq. apply (app_str_inj_length a a' b b); [|done].
  apply (f_equal String.length) in Heq. rewrite !length_app_str in Heq. lia.
Qed.

Lemma length_hex_fixed k n : String.length (hex_fixed k n) = k.
Proof.
  revert n. induction k as [|k IH]; intros n; [done|].
  cbn [hex_fixed]. rewrite length_app_str, IH. simpl. lia.
Qed.

(** X16. The artifact paths tell tasks apart: two tasks whose identities
    are [uuid4().hex] strings share an input path, or an output path, only
    if they have the same identity and the same timestamp; and an input
    path is never an output path. *)
Theorem artifact_paths_tell_tasks_apart u u' ts ts' :
  (input_path_of (uuid_hex u) ts = input_path_of (uuid_hex u') ts' ->
   uuid_hex u = uuid_hex u' /\ ts = ts')
  /\ (output_path_of (uuid_hex u) ts = output_path_of (uuid_hex u') ts' ->
      uuid_hex u = uuid_hex u' /\ ts = ts')
  /\ input_path_of (uuid_hex u) ts <> output_path_of (uuid_hex u') ts'.
Proof.
  assert (Hlen : String.length (uuid_hex u) = String.length (uuid_hex u'))
    by (unfold uuid_hex; by rewrite !length_hex_fixed).
  split_and!; [| |apply input_path_not_output].
  - unfold input_path_of. cbv zeta. intros Heq.
    apply (app_str_inj_l "uploads/") in Heq. apply (app_str_inj_l "input_") in Heq.
    apply app_str_inj_length in Heq as [Hid Heq]; [|done].
    apply (app_str_inj_l "_") in Heq. by apply app_str_inj_r in Heq.
  - unfold output_path_of. cbv zeta. intros Heq.
    apply (app_str_inj_l "results/") in Heq. apply (app_str_inj_l "result_") in Heq.
    apply app_str_inj_length in Heq as [Hid Heq]; [|done].
    apply (app_str_inj_l "_") in Heq. by apply app_str_inj_r in Heq.
Qed.

(** ** The page of any table *)

Lemma insert_desc_In r l x : In x (insert_desc r l) <-> x = r \/ In x l.
Proof.
  induction l as [|y l IH]; simpl; [intuition|].
  destruct (row_id y <=? row_id r)%N; simpl; [intuition|].
  rewrite IH. intuition.
Qed.

Lemma order_by_id_desc_In l x : In x (order_by_id_desc l) <-> In x l.
Proof.
  induction l as [|r l IH]; simpl; [done|].
  rewrite insert_desc_In, IH. intuition.
Qed.

Lemma insert_desc_sorted r l : ids_descending l -> ids_descending (insert_desc r l).
Proof.
  unfold ids_descending. induction 1 as [|y l Hl IH Hy]; simpl.
  - repeat constructor.
  - destruct (row_id y <=? row_id r)%N eqn:Hle.
    + apply N.leb_le in Hle. constructor; [by constructor|].
      constructor; [done|].
      eapply List.Forall_impl; [|exact Hy]. simpl. intros z Hz. lia.
    + apply N.leb_gt in Hle. constructor; [done|].
      apply List.Forall_forall. intros z [-> | Hz]%insert_desc_In; [lia|].
      by eapply List.Forall_forall in Hy.
Qed.

Lemma order_by_id_desc_sorted l : ids_descending (order_by_id_desc l).
Proof.
  induction l as [|r l IH]; simpl; [constructor | by apply insert_desc_sorted].
Qed.

Lemma ids_descending_take n l : ids_descending l -> ids_descending (take n l).
Proof.
  unfold ids_descending. intros H. revert n.
  induction H as [|y l Hl IH Hy]; intros [|n]; simpl; try constructor.
  - apply IH.
  - by apply Forall_take.
Qed.

Lemma insert_desc_length r l : length (insert_desc r l) = S (length l).
Proof.
  induction l as [|y l IH]; simpl; [done|].
  destruct (row_id y <=? row_id r)%N; simpl; [done | by rewrite IH].
Qed.

Lemma order_by_id_desc_length l : length (order_by_id_desc l) = length l.
Proof.
  induction l as [|r l IH]; simpl; [done|]. by rewrite insert_desc_length, IH.
Qed.

(** X17. Whatever the table holds, the page of a session has at most 20
    rows, all of them rows of the table recorded under that session, in
    descending order of row id; it has as many rows as the session has
    records, up to 20, and none of the session's records is left out when
    there are at most 20. *)
Theorem history_page_of_any_table t sid :
  ids_descending (select_rows t sid)
  /\ length (select_rows t sid) = Nat.min 20 (length (session_records t sid))
  /\ (forall r, In r (select_rows t sid) ->
                In r (rows t) /\ row_session_id r = sid)
  /\ (length (session_records t sid) <= 20 ->
      forall r, In r (rows t) -> row_session_id r = sid ->
                In r (select_rows t sid)).
Proof.
  rewrite select_rows_records. split_and!.
  - apply ids_descending_take, order_by_id_desc_sorted.
  - by rewrite length_take, order_by_id_desc_length.
  - intros r Hin%list_elem_of_In. apply subseteq_take, list_elem_of_In in Hin.
    apply (proj1 (order_by_id_desc_In _ _)) in Hin. unfold session_records in Hin.
    apply filter_In in Hin as [Hin Heq]. by apply String.eqb_eq in Heq.
  - intros Hlen r Hin Hsid. rewrite take_ge by (rewrite order_by_id_desc_length; lia).
    apply (proj2 (order_by_id_desc_In _ _)). unfold session_records. apply filter_In.
    split; [done | by apply String.eqb_eq].
Qed.

(** ** One client at the interface *)

Lemma demo_run E file_input tool_select rest st w :
  demo (RunButton E file_input tool_select :: rest) st w
  = let r := run_alignment E file_input tool_select st w in
    let r' := demo rest (state_of r) (world_of r) in
    (RunShown (result_of r) :: result_of r', state_of r', world_of r').
Proof.
  cbn [demo]. destruct (run_alignment _ _ _ _ _) as [[o st1] w1].
  unfold state_of, world_of, result_of. simpl.
  by destruct (demo rest st1 w1) as [[page st2] w2].
Qed.

Lemma demo_history E rest st w :
  demo (HistoryButton E :: rest) st w
  = let r := show_history E st w in
    let r' := demo rest (state_of r) (world_of r) in
    (HistoryShown (result_of r) :: result_of r', state_of r', world_of r').
Proof.
  cbn [demo]. destruct (show_history _ _ _) as [[o st1] w1].
  unfold state_of, world_of, result_of. simpl.
  by destruct (demo rest st1 w1) as [[page st2] w2].
Qed.

Lemma show_history_frame E st w :
  state_of (show_history E st w) = st
  /\ history (world_of (show_history E st w)) = history w
  /\ uuid_draws (world_of (show_history E st w)) = uuid_draws w
  /\ files (world_of (show_history E st w)) = files w
  /\ run_calls (world_of (show_history E st w)) = run_calls w.
Proof.
  unfold show_history, state_of, world_of.
  destruct (negb _); [by destruct st|].
  destruct (db_fault E); [by destruct st|].
  by destruct (sql_select_history _ _), st.
Qed.

(** A submission under a dictionary that carries an identity: the
    dictionary is as before and the table gains at most one row, of that
    identity. *)
Lemma run_alignment_under_identity E f tool d w s :
  dict_get d "session_id" = PStr s ->
  let r := run_alignment E f tool (Some d) w in
  state_of r = Some d
  /\ exists new, rows (history (world_of r)) = (rows (history w) ++ new)%list
                 /\ Forall (fun x => row_session_id x = s) new.
Proof.
  intros Hget r. subst r. split.
  - destruct (run_alignment_components E f tool (Some d) w) as (_ & -> & _).
    rewrite run_alignment_exit_state. destruct f; [|done].
    by rewrite resolve_session_present with (s := s).
  - destruct (run_alignment_history_cases E f tool (Some d) w)
      as [-> | (_ & _ & Hins)].
    + exists []. by rewrite app_nil_r.
    + apply sql_insert_appends in Hins as (s' & Hs' & ->).
      unfold resolved_session in Hs'. simpl in Hs'.
      rewrite resolve_session_present with (s := s) in Hs' by done.
      injection Hs' as <-. eexists. split; [done|]. by repeat constructor.
Qed.

Lemma demo_under_identity clicks d w s :
  dict_get d "session_id" = PStr s ->
  let r := demo clicks (Some d) w in
  state_of r = Some d
  /\ exists new, rows (history (world_of r)) = (rows (history w) ++ new)%list
                 /\ Forall (fun x => row_session_id x = s) new.
Proof.
  intros Hget. cbv zeta. revert w.
  induction clicks as [|[E f tool | E] rest IH]; intros w.
  - split; [done|]. exists []. by rewrite app_nil_r.
  - rewrite demo_run. cbv zeta.
    destruct (run_alignment_under_identity E f tool d w s Hget) as (Hst & new & Hrows & Hall).
    cbv zeta in Hst, Hrows. rewrite Hst.
    destruct (IH (world_of (run_alignment E f tool (Some d) w))) as (Hst' & new' & Hrows' & Hall').
    split; [exact Hst'|]. exists (new ++ new')%list.
    split; [|by apply Forall_app].
    unfold world_of at 1. simpl. fold (world_of (demo rest (Some d)
      (world_of (run_alignment E f tool (Some d) w)))).
    by rewrite Hrows', Hrows, app_assoc.
  - rewrite demo_history. cbv zeta.
    destruct (show_history_frame E (Some d) w) as (Hst & Hh & _).
    rewrite Hst.
    destruct (IH (world_of (show_history E (Some d) w))) as (Hst' & new' & Hrows' & Hall').
    split; [exact Hst'|]. exists new'. split; [|done].
    unfold world_of at 1. simpl. fold (world_of (demo rest (Some d)
      (world_of (show_history E (Some d) w)))).
    by rewrite Hrows', Hh.
Qed.

(** X18. Once the session dictionary carries an identity, no sequence of
    clicks changes it, and every row the clicks add to the table is
    recorded under that identity, after the rows already there. *)
Theorem client_identity_is_stable clicks d w s :
  dict_get d "session_id" = PStr s ->
  let r := demo clicks (Some d) w in
  state_of r = Some d
  /\ exists new, rows (history (world_of r)) = (rows (history w) ++ new)%list
                 /\ Forall (fun x => row_session_id x = s) new.
Proof. apply demo_under_identity. Qed.

Lemma client_identity_is_stable_witness :
  state_of (demo [RunButton Sample.env Sample.file "MAFFT";
                  HistoryButton Sample.env;
                  RunButton Sample.env Sample.file "MUSCLE"]
              (Some {[ "session_id" := PStr "A" ]}) Sample.world3)
  = Some {[ "session_id" := PStr "A" ]}.
Proof.
  apply (client_identity_is_stable
           [RunButton Sample.env Sample.file "MAFFT";
            HistoryButton Sample.env;
            RunButton Sample.env Sample.file "MUSCLE"]
           {[ "session_id" := PStr "A" ]} Sample.world3 "A").
  reflexivity.
Defined.

Lemma run_alignment_with_file E file tool d w :
  let r := run_alignment E (Some file) tool (Some d) w in
  exists s d',
    state_of r = Some d'
    /\ dict_get d' "session_id" = PStr s
    /\ (dict_get d "session_id" = PNone ->
        d' = <["session_id" := PStr s]> d)
    /\ exists new, rows (history (world_of r)) = (rows (history w) ++ new)%list
                   /\ Forall (fun x => row_session_id x = s) new.
Proof.
  intros r. subst r.
  destruct (resolve_session_stored E d w) as (s & Hid & Hstored).
  exists s, (state_of (resolve_session E d w)). split_and!.
  - destruct (run_alignment_components E (Some file) tool (Some d) w)
      as (_ & -> & _).
    by rewrite run_alignment_exit_state.
  - done.
  - intros Hnone. rewrite resolve_session_absent in Hid |- * by done.
    unfold result_of, state_of in *. simpl in *. by injection Hid as <-.
  - destruct (run_alignment_history_cases E (Some file) tool (Some d) w)
      as [-> | (_ & _ & Hins)].
    + exists []. by rewrite app_nil_r.
    + apply sql_insert_appends in Hins as (s' & Hs' & ->).
      unfold resolved_session in Hs'. simpl in Hs'. rewrite Hid in Hs'.
      injection Hs' as <-. eexists. split; [done|]. by repeat constructor.
Qed.

(** X19. One client, one session: starting from the empty dictionary of
    [gr.State], any sequence of clicks leaves the dictionary either empty,
    with nothing recorded, or holding exactly one entry, ['session_id'];
    all the rows the clicks add to the table carry that one identity. *)
Theorem one_client_one_session clicks w :
  let r := demo clicks initial_state w in
  exists s new,
    rows (history (world_of r)) = (rows (history w) ++ new)%list
    /\ Forall (fun x => row_session_id x = s) new
    /\ (state_of r = Some ∅ /\ new = []
        \/ state_of r = Some {[ "session_id" := PStr s ]}).
Proof.
  cbv zeta. unfold initial_state. revert w.
  induction clicks as [|[E f tool | E] rest IH]; intros w.
  - exists "", []. rewrite app_nil_r. split_and!; [done | constructor | by left].
  - rewrite demo_run. cbv zeta. destruct f as [file|].
    + destruct (run_alignment_with_file E file tool ∅ w)
        as (s & d' & Hst & Hget & Hd' & new & Hrows & Hall).
      cbv zeta in Hst, Hrows. rewrite Hst.
      destruct (demo_under_identity rest d'
                  (world_of (run_alignment E (Some file) tool (Some ∅) w)) s Hget)
        as (Hst' & new' & Hrows' & Hall').
      cbv zeta in Hst', Hrows'.
      exists s, (new ++ new')%list. split_and!.
      * unfold world_of at 1. simpl.
        fold (world_of (demo rest (Some d')
                (world_of (run_alignment E (Some file) tool (Some ∅) w)))).
        by rewrite Hrows', Hrows, app_assoc.
      * by apply Forall_app.
      * right. unfold state_of at 1. simpl.
        fold (state_of (demo rest (Some d')
                (world_of (run_alignment E (Some file) tool (Some ∅) w)))).
        rewrite Hst', Hd' by done. by rewrite insert_empty.
    + assert (Hst : state_of (run_alignment E None tool (Some ∅) w) = Some ∅)
        by done.
      assert (Hh : history (world_of (run_alignment E None tool (Some ∅) w))
                   = history w) by done.
      rewrite Hst.
      destruct (IH (world_of (run_alignment E None tool (Some ∅) w)))
        as (s & new & Hrows & Hall & Hshape).
      exists s, new. rewrite Hh in Hrows. by split_and!.
  - rewrite demo_history. cbv zeta.
    destruct (show_history_frame E (Some ∅) w) as (Hst & Hh & _).
    rewrite Hst.
    destruct (IH (world_of (show_history E (Some ∅) w)))
      as (s & new & Hrows & Hall & Hshape).
    exists s, new. rewrite Hh in Hrows. by split_and!.
Qed.


(** X20. As long as no file is submitted nothing happens: from the empty
    dictionary, clicks of the run button without a file and clicks of the
    history button show the "no file" rejection and the "no history"
    message, leave the dictionary empty, draw no identity, and touch
    neither the files, the table, the database nor any command. *)
Theorem clicks_without_file_do_nothing clicks w :
  Forall without_file clicks ->
  let r := demo clicks initial_state w in
  result_of r = map idle_answer clicks
  /\ state_of r = initial_state
  /\ uuid_draws (world_of r) = uuid_draws w
  /\ history (world_of r) = history w
  /\ db_conns (world_of r) = db_conns w
  /\ files (world_of r) = files w
  /\ run_calls (world_of r) = run_calls w.
Proof.
  intros Hall. cbv zeta. unfold initial_state. revert w.
  induction Hall as [|[E f tool | E] rest Hc _ IH]; intros w; [done| |].
  - simpl in Hc. subst f. rewrite demo_run. cbv zeta.
    change (state_of (run_alignment E None tool (Some ∅) w))
      with (Some (∅ : session_dict)).
    pose proof (IH (world_of (run_alignment E None tool (Some ∅) w))) as IHw.
    destruct (demo rest (Some ∅) _) as [[page st'] w'].
    unfold result_of, state_of, world_of in *. simpl in *.
    destruct IHw as (-> & -> & -> & -> & -> & -> & ->). done.
  - rewrite demo_history. cbv zeta.
    change (state_of (show_history E (Some ∅) w)) with (Some (∅ : session_dict)).
    pose proof (IH (world_of (show_history E (Some ∅) w))) as IHw.
    destruct (demo rest (Some ∅) _) as [[page st'] w'].
    unfold result_of, state_of, world_of in *. simpl in *.
    destruct IHw as (-> & -> & -> & -> & -> & -> & ->). done.
Qed.

Lemma clicks_without_file_do_nothing_witness :
  result_of (demo [HistoryButton Sample.env; RunButton Sample.env None "MAFFT"]
               initial_state Sample.world)
  = [HistoryShown "当前会话没有历史记录。";
     RunShown (Outputs "请上传FASTA文件。" None "错误：未上传文件")].
Proof.
  apply (clicks_without_file_do_nothing
           [HistoryButton Sample.env; RunButton Sample.env None "MAFFT"]
           Sample.world).
  repeat constructor.
Defined.

(** ** [save_to_db] on its own *)

(** X21. [save_to_db] never fails towards its caller and opens the
    database exactly once. It appends its row, under the next row id,
    exactly when the database raises no error, the session is not [None]
    and the task identity is not in the table yet; in every other case
    the table is left as it was and the error is the last entry of the
    log. *)
Theorem save_to_db_inserts_or_logs E sid task tool inp out ts w :
  let w' := save_to_db E sid task tool inp out ts w in
  let accepted :=
    db_fault E = None
    /\ existsb (fun r => String.eqb (row_task_id r) task) (rows (history w)) = false
    /\ exists s, sid = PStr s in
  db_conns w' = S (db_conns w)
  /\ (accepted ->
      exists s, sid = PStr s
        /\ history w'
           = Table (rows (history w)
                      ++ [Row (N.succ (seq (history w))) s task tool inp out ts])
                   (N.succ (seq (history w)))
        /\ last (log w') = Some (InfoDbSaved task sid))
  /\ (~ accepted ->
      history w' = history w
      /\ exists e, last (log w') = Some (ErrDbSave task e)).
Proof.
  cbv zeta. unfold save_to_db.
  destruct (db_fault E) as [e|] eqn:Hfault; simpl.
  { split_and!; [done | by intros [? _] |].
    intros _. split; [done|]. exists e. apply last_snoc. }
  unfold sql_insert. destruct sid as [|s]; simpl.
  { split_and!; [done | by intros (_ & _ & ? & ?) |].
    intros _. split; [done|]. eexists. apply last_snoc. }
  destruct (existsb _ (rows (history w))) eqn:Hex; simpl.
  { split_and!; [done | by intros (_ & ? & _) |].
    intros _. split; [done|]. eexists. apply last_snoc. }
  split_and!; [done | |].
  - intros _. exists s. split_and!; [done | done | apply last_snoc].
  - intros Hnot. exfalso. apply Hnot. split_and!; eauto.
Qed.

(** ** States that carry no usable identity *)

(** X22. With a [None] state nothing is remembered: [run_alignment] works
    under an identity drawn for this call alone (two draws per
    submission), the caller's state stays [None], and [show_history] on
    it answers "no history" without opening the database. *)
Theorem none_state_is_never_remembered E file tool w E' w' :
  let r := run_alignment E (Some file) tool None w in
  state_of r = None
  /\ resolved_session E None w = PStr (uuid_str (uuid4 E (uuid_draws w)))
  /\ task_id_of E None w = uuid_hex (uuid4 E (S (uuid_draws w)))
  /\ uuid_draws (world_of r) = 2 + uuid_draws w
  /\ result_of (show_history E' (state_of r) w') = "当前会话没有历史记录。"
  /\ db_conns (world_of (show_history E' (state_of r) w')) = db_conns w'.
Proof.
  cbv zeta.
  destruct (run_alignment_components E (Some file) tool None w) as (_ & -> & ->).
  rewrite run_alignment_exit_state, run_alignment_exit_draws.
  split_and!; done.
Qed.

(** X23. An empty string stored under ['session_id'] is an identity for
    [run_alignment], which keeps it and records under it, and no identity
    for [show_history], which answers "no history" without opening the
    database: tasks recorded under it are never listed. *)
Theorem empty_identity_is_recorded_but_never_listed E f tool d w E' w' :
  dict_get d "session_id" = PStr "" ->
  resolved_session E (Some d) w = PStr ""
  /\ state_of (run_alignment E f tool (Some d) w) = Some d
  /\ result_of (show_history E' (Some d) w') = "当前会话没有历史记录。"
  /\ db_conns (world_of (show_history E' (Some d) w')) = db_conns w'.
Proof.
  intros Hget. split_and!.
  - unfold resolved_session. simpl.
    by rewrite resolve_session_present with (s := "").
  - by destruct (run_alignment_under_identity E f tool d w "" Hget) as [-> _].
  - rewrite show_history_result. simpl. by rewrite Hget.
  - unfold show_history, world_of. simpl. by rewrite Hget.
Qed.

Lemma empty_identity_is_recorded_but_never_listed_witness :
  result_of (show_history Sample.env (Some {[ "session_id" := PStr "" ]})
               Sample.world3)
  = "当前会话没有历史记录。".
Proof.
  destruct (empty_identity_is_recorded_but_never_listed Sample.env Sample.file
              "MAFFT" {[ "session_id" := PStr "" ]} Sample.world Sample.env
              Sample.world3) as (_ & _ & Hres & _).
  - reflexivity.
  - exact Hres.
Defined.
